(** * py-yaml-fixtures: the SQLAlchemy model factory

    A shallow embedding of [py_yaml_fixtures/factories/sqlalchemy.py]
    ([SQLAlchemyModelFactory]) and the properties of its create-or-update
    engine, its matcher of existing instances and its value coercion.

    Conventions of the embedding:
    - a Python [dict] that the code iterates is an association list in
      insertion order (keys unique); the dictionaries the code only looks
      up ([self.models], [self.model_instances], object attributes) are
      [gmap]s;
    - Python objects with identity (model instances, the record passed to
      [maybe_convert_values]) live in stores and are named by addresses;
    - a call returns an [outcome] together with the state it leaves
      behind, so that what an exception leaves changed is visible;
    - strings are sequences of ASCII characters. *)

From Stdlib Require Import ZArith String Ascii List Bool Lia.
From stdpp Require Import base option list strings gmap.

Local Open Scope string_scope.

(** ** Python values *)

Definition addr := positive.

(** The values that occur in fixture records and in coerced data.
    [VInstance] is a reference to a mapped model instance, [VIdentifier]
    the loader's [Identifier(class_name, key)]; [VFloat m e] stands for a
    float (only ever passed through), [VOther] for any other object. *)
Inductive value :=
| VNone
| VBool (b : bool)
| VInt (n : Z)
| VFloat (m e : Z)
| VStr (s : string)
| VIdentifier (class_name key : string)
| VIdentifiers (ids : list (string * string))
| VInstance (a : addr)
| VInstances (l : list addr)
| VDate (year month day : Z)
| VTime (hour minute second microsecond : Z)
| VDatetime (date_part time_part : Z * Z * Z)
| VTimedelta (days seconds microseconds : Z)
| VOther (repr : string).

#[global] Instance value_eq_dec : EqDecision value.
Proof. solve_decision. Defined.

(** Exceptions the modelled code can raise. [Unmodelled] is not a Python
    exception: it marks an input whose result the embedding does not
    determine (a float magnitude that is not a whole number). *)
Inductive exn :=
| KeyError | AttributeError | TypeError | ValueError | OverflowError
| NotImplementedError | MultipleResultsFound | Unmodelled.

#[global] Instance exn_eq_dec : EqDecision exn.
Proof. solve_decision. Defined.

Inductive outcome (A : Type) :=
| Ret (a : A)
| Raise (e : exn).
Arguments Ret {A} a.
Arguments Raise {A} e.

Definition obind {A B} (o : outcome A) (f : A -> outcome B) : outcome B :=
  match o with
  | Ret a => f a
  | Raise e => Raise e
  end.


(** ** Python dictionaries in insertion order *)

Definition dict := list (string * value).

Fixpoint dict_get (d : dict) (k : string) : option value :=
  match d with
  | [] => None
  | (k', v) :: d' => if decide (k' = k) then Some v else dict_get d' k
  end.

(** [d[k] = v]: an existing key keeps its position, a new key goes last. *)
Fixpoint dict_set (d : dict) (k : string) (v : value) : dict :=
  match d with
  | [] => [(k, v)]
  | (k', v') :: d' =>
      if decide (k' = k) then (k', v) :: d' else (k', v') :: dict_set d' k v
  end.

Definition dict_keys (d : dict) : list string := map fst d.

(** ** Strings: [str.split], [int], [float] *)

(** [s.split(sep)] for a one-character separator: never empty, empty
    fields kept. *)
Fixpoint split_on (sep : ascii) (s : string) : list string :=
  match s with
  | EmptyString => [EmptyString]
  | String c s' =>
      if decide (c = sep) then EmptyString :: split_on sep s'
      else match split_on sep s' with
           | [] => [String c EmptyString]
           | w :: ws => String c w :: ws
           end
  end.

Definition is_space (c : ascii) : bool :=
  let n := nat_of_ascii c in
  (Nat.leb 9 n && Nat.leb n 13) || Nat.eqb n 32.

Definition digit_of (c : ascii) : option Z :=
  let n := nat_of_ascii c in
  if Nat.leb 48 n && Nat.leb n 57 then Some (Z.of_nat n - 48)%Z else None.

Fixpoint lstrip (s : string) : string :=
  match s with
  | String c s' => if is_space c then lstrip s' else s
  | EmptyString => s
  end.

Fixpoint rstrip (s : string) : string :=
  match s with
  | String c s' =>
      match rstrip s' with
      | EmptyString => if is_space c then EmptyString else String c EmptyString
      | r => String c r
      end
  | EmptyString => EmptyString
  end.

(** Digits of a decimal literal, read left to right with accumulator
    [acc]; [after_digit] says whether the previous character was a digit.
    An underscore is accepted only between two digits. *)
Fixpoint digits_from (s : string) (acc : Z) (after_digit : bool) : option Z :=
  match s with
  | EmptyString => if after_digit then Some acc else None
  | String c s' =>
      match digit_of c with
      | Some d => digits_from s' (10 * acc + d)%Z true
      | None =>
          if decide (c = "_"%char) then
            if after_digit then
              match s' with
              | String c' _ =>
                  match digit_of c' with
                  | Some _ => digits_from s' acc false
                  | None => None
                  end
              | EmptyString => None
              end
            else None
          else None
      end
  end.

(** [int(s)] for a string [s]: surrounding white space, a sign, decimal
    digits. [None] stands for [ValueError]. (The bound that recent
    versions of Python put on the number of digits is not modelled.) *)
Definition py_int (s : string) : option Z :=
  match rstrip (lstrip s) with
  | String "-" r => Z.opp <$> digits_from r 0 false
  | String "+" r => digits_from r 0 false
  | r => digits_from r 0 false
  end.

(** [float(s)] restricted to the literals that [int] reads too and that a
    binary64 float holds exactly: the whole number, or [None] where the
    embedding does not determine the result. *)
Definition py_float_whole (s : string) : option Z :=
  match py_int s with
  | Some n => if (Z.abs n <=? 2 ^ 53)%Z then Some n else None
  | None => None
  end.

(** ** [datetime.time] and [datetime.timedelta] *)

Definition fits_c_int (n : Z) : bool :=
  ((- 2 ^ 31 <=? n) && (n <? 2 ^ 31))%Z.

Definition in_range (lo hi n : Z) : bool := ((lo <=? n) && (n <=? hi))%Z.

(** [datetime.time] applied to positional integers: hour, minute, second and
    microsecond default to zero; a fifth positional argument is [tzinfo]
    and an integer is refused there; there is no sixth. *)
Definition py_time (args : list Z) : outcome value :=
  if decide (6 < length args) then Raise TypeError
  else if negb (forallb fits_c_int (take 4 args)) then Raise OverflowError
  else if decide (length args = 6) then Raise TypeError
  else
    let h := nth 0 args 0%Z in
    let mi := nth 1 args 0%Z in
    let s := nth 2 args 0%Z in
    let us := nth 3 args 0%Z in
    if negb (in_range 0 23 h && in_range 0 59 mi && in_range 0 59 s
             && in_range 0 999999 us)
    then Raise ValueError
    else if decide (length args = 5) then Raise TypeError
    else Ret (VTime h mi s us).

(** Microseconds in one unit of each keyword of [timedelta]. *)
Definition timedelta_unit (unit : string) : option Z :=
  if decide (unit = "days") then Some 86400000000%Z
  else if decide (unit = "seconds") then Some 1000000%Z
  else if decide (unit = "microseconds") then Some 1%Z
  else if decide (unit = "milliseconds") then Some 1000%Z
  else if decide (unit = "minutes") then Some 60000000%Z
  else if decide (unit = "hours") then Some 3600000000%Z
  else if decide (unit = "weeks") then Some 604800000000%Z
  else None.

(** [timedelta] called with the one keyword [unit], bound to a float
    that is the whole number [n]: the product is exact and is normalised to days, seconds and
    microseconds. *)
Definition py_timedelta (unit : string) (n : Z) : outcome value :=
  match timedelta_unit unit with
  | None => Raise TypeError
  | Some f =>
      let us := (n * f)%Z in
      let d := (us / 86400000000)%Z in
      let r := (us mod 86400000000)%Z in
      if (Z.abs d <=? 999999999)%Z
      then Ret (VTimedelta d (r / 1000000) (r mod 1000000))
      else Raise OverflowError
  end.

(** ** Calendar dates *)

Definition is_leap (y : Z) : bool :=
  ((y mod 4 =? 0) && (negb (y mod 100 =? 0) || (y mod 400 =? 0)))%Z.

Definition days_in_month (y m : Z) : Z :=
  if (m =? 2)%Z then (if is_leap y then 29 else 28)%Z
  else if ((m =? 4) || (m =? 6) || (m =? 9) || (m =? 11))%Z then 30%Z
  else 31%Z.

Fixpoint digits_acc (s : string) (acc : Z) : option Z :=
  match s with
  | EmptyString => Some acc
  | String c s' =>
      match digit_of c with
      | Some d => digits_acc s' (10 * acc + d)%Z
      | None => None
      end
  end.

Definition all_digits (s : string) : option Z :=
  match s with
  | EmptyString => None
  | _ => digits_acc s 0%Z
  end.

(** Modelled from the spec: [utils.date_factory], the default date
    factory, is not among the sources; the spec says it parses an
    ISO-style date string. This is the extended calendar form
    [YYYY-MM-DD], with the range checks of [datetime.date]. *)
Definition iso_date_factory (v : value) : outcome value :=
  match v with
  | VStr s =>
      match split_on "-" s with
      | [ys; ms; ds] =>
          if decide (String.length ys = 4%nat /\ String.length ms = 2%nat
                     /\ String.length ds = 2%nat) then
            match all_digits ys, all_digits ms, all_digits ds with
            | Some y, Some m, Some d =>
                if in_range 1 9999 y && in_range 1 12 m
                   && in_range 1 (days_in_month y m) d
                then Ret (VDate y m d) else Raise ValueError
            | _, _, _ => Raise ValueError
            end
          else Raise ValueError
      | _ => Raise ValueError
      end
  | _ => Raise TypeError
  end.

(** ** Mapped classes

    What the code reads of a mapped class: the columns of its mapper
    (name, primary-key and unique flags), and its namespace, which is
    what [getattr(model_class, name)] finds and what
    [__mapper__.all_orm_descriptors] ranges over. Of an attribute the
    code looks at three things: whether it is an [AssociationProxy],
    whether it has an [impl] and that [impl.uses_objects], and whether it
    has a [type]. *)

Inductive py_type := PyDate | PyTime | PyDatetime | PyTimedelta | PyOtherType.

#[global] Instance py_type_eq_dec : EqDecision py_type.
Proof. solve_decision. Defined.

(** [str(col.type)] and [col.type.python_type]; the latter raises
    [NotImplementedError] for a type that declares none ([None] here). *)
Record column_type := {
  type_str : string;
  python_type : option py_type;
}.

#[global] Instance column_type_eq_dec : EqDecision column_type.
Proof. solve_decision. Defined.

Record descriptor := {
  is_association_proxy : bool;
  impl_uses_objects : option bool;
  attr_type : option column_type;
}.

#[global] Instance descriptor_eq_dec : EqDecision descriptor.
Proof. solve_decision. Defined.

Record column := {
  col_name : string;
  primary_key : bool;
  unique : bool;
}.

#[global] Instance column_eq_dec : EqDecision column.
Proof. solve_decision. Defined.

Record model_class := {
  cls_name : string;
  columns : list column;
  all_orm_descriptors : list (string * descriptor);
}.

#[global] Instance model_class_eq_dec : EqDecision model_class.
Proof. solve_decision. Defined.

(** [getattr(model_class, name)]; [None] stands for [AttributeError]. *)
Fixpoint class_getattr_in (ds : list (string * descriptor)) (name : string)
  : option descriptor :=
  match ds with
  | [] => None
  | (n, d) :: ds' => if decide (n = name) then Some d else class_getattr_in ds' name
  end.

Definition class_getattr (mc : model_class) (name : string) : option descriptor :=
  class_getattr_in (all_orm_descriptors mc) name.

(** The loader's [Identifier]. *)
Record identifier := {
  class_name : string;
  key : string;
}.

(** ** Instances, the session and the factory

    A mapped instance has a class, its attributes in memory, and, when it
    is persistent, the row the database holds for it as of the last
    flush. The database is seen only through these rows: a query issued
    under [no_autoflush] compares the flushed rows, not the attributes in
    memory, and returns the objects that stand for the matching rows. *)

Record object := {
  o_class : model_class;
  o_attrs : gmap string value;
  o_row : option (gmap string value);
}.

(** [self.model_instances], the members of [self.session], and the
    objects. *)
Record engine := {
  model_instances : gmap string (gmap string addr);
  session : gset addr;
  heap : gmap addr object;
}.

(** The fields of the factory that do not change during a load. The
    loader's [convert_identifiers] belongs to the loader, which is not
    part of this module: it is a field here, and it acts on the engine. *)
Record factory := {
  models : gmap string model_class;
  date_factory : value -> outcome value;
  datetime_factory : value -> outcome value;
  loader_convert_identifiers : value -> engine -> outcome value * engine;
}.

(** [getattr(v, name)] on a mapped instance: an attribute never set reads
    [None]. *)
Definition instance_getattr (o : object) (name : string) : value :=
  default VNone (o_attrs o !! name).

(** The object [v] refers to when [v] is a mapped instance, that is when
    [hasattr(v, '__mapper__')]; its class gives [v.__mapper__]. *)
Definition mapper_of (s : engine) (v : value) : option object :=
  match v with
  | VInstance a => heap s !! a
  | _ => None
  end.

Definition is_primitive (v : value) : bool :=
  match v with
  | VBool _ | VInt _ | VStr _ | VFloat _ _ => true
  | _ => false
  end.

Definition is_none (v : value) : bool :=
  match v with
  | VNone => true
  | _ => false
  end.

(** *** The query *)

(** The comparison of the database, taken to be equality of the values:
    the conversions a database applies when it compares (a text with a
    number) are not modelled. *)
Definition row_matches (flt : dict) (row : gmap string value) : bool :=
  forallb (fun kv => bool_decide (default VNone (row !! kv.1) = kv.2)) flt.

Definition row_selected (mc : model_class) (flt : dict) (ao : addr * object) : bool :=
  bool_decide (o_class ao.2 = mc)
  && match o_row ao.2 with
     | Some r => row_matches flt r
     | None => false
     end.

(** [self.session.query(model_class).filter(...)]: the objects of the
    class whose flushed row satisfies every equality of the filter (a
    column without value is [NULL], which equals [None]). The query
    also makes the rows it loads members of the session; the state keeps
    no record of that, and [create_or_update] adds the instance it gets
    from the matcher in any case. *)
Definition session_query (s : engine) (mc : model_class) (flt : dict) : list addr :=
  map fst (List.filter (row_selected mc flt) (map_to_list (heap s))).

(** [Query.one_or_none]. *)
Definition one_or_none (rows : list addr) : outcome (option addr) :=
  match rows with
  | [] => Ret None
  | [a] => Ret (Some a)
  | _ => Raise MultipleResultsFound
  end.

(** ** The factory's methods *)

Definition is_relationship (d : descriptor) : bool :=
  is_association_proxy d
  || match impl_uses_objects d with
     | Some uses_objects => uses_objects
     | None => false
     end.

Definition relationship_names (mc : model_class) : gset string :=
  foldl (fun rv nd => if is_relationship nd.2 then rv ∪ {[nd.1]} else rv)
        ∅ (all_orm_descriptors mc).

(** The first loop of [_get_existing]: the filter over the primary-key
    and unique columns that [data] gives a value for. One column adds
    its entry when [col.name in data and (col.primary_key or
    col.unique)]. *)
Definition key_filter_step (data : dict) (filter_kwargs : dict) (col : column) : dict :=
  match dict_get data (col_name col) with
  | Some v =>
      if primary_key col || unique col
      then dict_set filter_kwargs (col_name col) v
      else filter_kwargs
  | None => filter_kwargs
  end.

Definition key_filter (cols : list column) (data : dict) : dict :=
  foldl (key_filter_step data) [] cols.

(** A name of a column that the schema marks primary-key or unique. *)
Definition is_key_column (cols : list column) (k : string) : Prop :=
  exists col, col ∈ cols /\ col_name col = k /\ primary_key col || unique col = true.

(** The comprehension of [_get_existing]: the fallback filter. *)
Definition fallback_keeps (relationships : gset string) (s : engine)
    (kv : string * value) : bool :=
  (bool_decide (kv.1 ∈ relationships) && bool_decide (is_Some (mapper_of s kv.2)))
  || is_none kv.2
  || is_primitive kv.2.

Definition fallback_filter (relationships : gset string) (s : engine)
    (data : dict) : dict :=
  List.filter (fallback_keeps relationships s) data.

(** [filter_kwargs] as it stands before the last loop: the key filter,
    or the fallback filter when the key filter is empty. *)
Definition filter_kwargs (mc : model_class) (relationships : gset string)
    (s : engine) (data : dict) : dict :=
  match key_filter (columns mc) data with
  | [] => fallback_filter relationships s data
  | flt => flt
  end.

Definition primary_key_names (mc : model_class) : list string :=
  map col_name (List.filter primary_key (columns mc)).

(** The last loop of [_get_existing]: [Ret true] when a referenced
    instance has a primary-key attribute that is [None] (the method then
    returns [None]), [Ret false] when the loop runs to its end. *)
Fixpoint check_filter (mc : model_class) (relationships : gset string)
    (s : engine) (filter_kwargs : dict) : outcome bool :=
  match filter_kwargs with
  | [] => Ret false
  | (k, v) :: rest =>
      match class_getattr mc k with
      | None => Raise AttributeError
      | Some _ =>
          if decide (k ∈ relationships) then
            match mapper_of s v with
            | None => Raise AttributeError
            | Some o =>
                if existsb (fun pk => is_none (instance_getattr o pk))
                           (primary_key_names (o_class o))
                then Ret true
                else check_filter mc relationships s rest
            end
          else check_filter mc relationships s rest
      end
  end.

Definition isinstance (s : engine) (instance : option addr) (mc : model_class) : bool :=
  match instance with
  | Some a =>
      match heap s !! a with
      | Some o => bool_decide (o_class o = mc)
      | None => false
      end
  | None => false
  end.

Definition in_session (s : engine) (instance : option addr) : bool :=
  match instance with
  | Some a => bool_decide (a ∈ session s)
  | None => false
  end.

(** Reading [self.model_instances[name]]: a [defaultdict] enters an
    empty dictionary for a name it does not have. *)
Definition touch_instances (name : string) (s : engine) : engine :=
  match model_instances s !! name with
  | Some _ => s
  | None =>
      {| model_instances := <[name := ∅]> (model_instances s);
         session := session s;
         heap := heap s |}
  end.

Definition cached (s : engine) (i : identifier) : option addr :=
  default ∅ (model_instances s !! class_name i) !! key i.

(** [setattr(instance, attr, value)] for each item of [data]. *)
Definition set_attrs (data : dict) (attrs : gmap string value) : gmap string value :=
  foldl (fun m kv => <[kv.1 := kv.2]> m) attrs data.

(** The instance as the loop of [setattr] leaves it when it runs to its
    end. What the mapper does on an assignment beside storing the value
    is not modelled: it may refuse the value, which raises in the middle
    of the loop, and it may load a relationship, which can flush. The
    properties of the update are therefore stated of the calls that
    return, and of the attributes in memory. *)
Definition update_instance (a : addr) (data : dict) (s : engine) : engine :=
  {| model_instances := model_instances s;
     session := session s;
     heap := alter (fun o => {| o_class := o_class o;
                                o_attrs := set_attrs data (o_attrs o);
                                o_row := o_row o |}) a (heap s) |}.

(** Calling [model_class] with the items of [data] as keywords, with the
    constructor the declarative base gives a class: a keyword that is no
    attribute of the class is a [TypeError]; the new object is transient
    and has a fresh identity. *)
Definition construct (mc : model_class) (data : dict) (s : engine)
  : outcome addr * engine :=
  if forallb (fun kv => bool_decide (is_Some (class_getattr mc kv.1))) data then
    let a := fresh (dom (heap s)) in
    (Ret a,
     {| model_instances := model_instances s;
        session := session s;
        heap := <[a := {| o_class := mc;
                          o_attrs := set_attrs data ∅;
                          o_row := None |}]> (heap s) |})
  else (Raise TypeError, s).

(** [self.session.add(instance)] followed by
    [self.model_instances[class_name][key] = instance]: the instance is
    a member of the session and the cache holds it. That [add] cascades
    to the instances the instance refers to, and raises on a value it
    cannot cascade to, is not modelled. *)
Definition register (i : identifier) (a : addr) (s : engine) : engine :=
  {| model_instances :=
       <[class_name i := <[key i := a]> (default ∅ (model_instances s !! class_name i))]>
         (model_instances s);
     session := session s ∪ {[a]};
     heap := heap s |}.

(** ** Records as objects

    [maybe_convert_values] receives the record as a dictionary object and
    returns a dictionary object: both live in a store of dictionaries, so
    that writing to one is seen through every reference to it. The
    engine is carried along for the loader's [convert_identifiers]. *)
Record world := {
  w_engine : engine;
  w_dicts : gmap addr dict;
}.

Definition with_engine (w : world) (s : engine) : world :=
  {| w_engine := s; w_dicts := w_dicts w |}.

(** [rv[col_name] = v] on the dictionary at [rv]. *)
Definition store_set (rv : addr) (col_name : string) (v : value) (w : world) : world :=
  {| w_engine := w_engine w;
     w_dicts := alter (fun d => dict_set d col_name v) rv (w_dicts w) |}.

(** [[int(x) for x in parts]]; the first part that [int] refuses raises
    [ValueError]. *)
Fixpoint ints_of (parts : list string) : outcome (list Z) :=
  match parts with
  | [] => Ret []
  | x :: parts' =>
      match py_int x with
      | None => Raise ValueError
      | Some n => obind (ints_of parts') (fun ns => Ret (n :: ns))
      end
  end.

(** [value.split(sep)]: only a string has the method for certain. *)
Definition py_split (sep : ascii) (v : value) : outcome (list string) :=
  match v with
  | VStr s => Ret (split_on sep s)
  | VOther _ => Raise Unmodelled
  | _ => Raise AttributeError
  end.

Section Factory.

Variable self : factory.

(** [get_relationships]. The [lru_cache] only saves recomputation: the
    result depends on [self.models] alone, which never changes. *)
Definition get_relationships (name : string) : outcome (gset string) :=
  match models self !! name with
  | None => Raise KeyError
  | Some model_class => Ret (relationship_names model_class)
  end.

(** [_get_existing]: the cache tier, then the filter, the loop over the
    filter and the query. The state it leaves differs from the one it
    found at most by the entry the [defaultdict] makes. *)
Definition _get_existing (i : identifier) (data : dict) (s : engine)
  : outcome (option addr) * engine :=
  match models self !! class_name i with
  | None => (Raise KeyError, s)
  | Some model_class =>
      match get_relationships (class_name i) with
      | Raise e => (Raise e, s)
      | Ret relationships =>
          let s := touch_instances (class_name i) s in
          let instance := cached s i in
          if isinstance s instance model_class && in_session s instance
          then (Ret instance, s)
          else
            match filter_kwargs model_class relationships s data with
            | [] => (Ret None, s)
            | flt =>
                match check_filter model_class relationships s flt with
                | Raise e => (Raise e, s)
                | Ret true => (Ret None, s)
                | Ret false => (one_or_none (session_query s model_class flt), s)
                end
            end
      end
  end.

(** [create_or_update]. An instance is an object and so is true in
    [if not instance]; only [None] takes the branch that creates. *)
Definition create_or_update (i : identifier) (data : dict) (s : engine)
  : outcome (addr * bool) * engine :=
  match _get_existing i data s with
  | (Raise e, s) => (Raise e, s)
  | (Ret None, s) =>
      match models self !! class_name i with
      | None => (Raise KeyError, s)
      | Some model_class =>
          match construct model_class data s with
          | (Raise e, s) => (Raise e, s)
          | (Ret instance, s) => (Ret (instance, true), register i instance s)
          end
      end
  | (Ret (Some instance), s) =>
      (Ret (instance, false), register i instance (update_instance instance data s))
  end.

(** The branches of [maybe_convert_values] for an attribute that is not
    a relationship: [Ret None] where the loop assigns nothing, and
    [Ret (Some v)] where it assigns [v] to [rv[col_name]]. *)
Definition convert_scalar (col : descriptor) (v : value) : outcome (option value) :=
  match attr_type col with
  | None => Ret None
  | Some ty =>
      if decide (type_str ty = "UUID") then Ret (Some v)
      else
        match python_type ty with
        | None => Raise NotImplementedError
        | Some PyDate => obind (date_factory self v) (fun d => Ret (Some d))
        | Some PyTime =>
            obind (py_split ":" v) (fun parts =>
            obind (ints_of parts) (fun args =>
            obind (py_time args) (fun t => Ret (Some t))))
        | Some PyDatetime => obind (datetime_factory self v) (fun d => Ret (Some d))
        | Some PyTimedelta =>
            obind (py_split " " v) (fun parts =>
            match parts with
            | [duration; unit] =>
                match py_float_whole duration with
                | None => Raise Unmodelled
                | Some n => obind (py_timedelta unit n) (fun d => Ret (Some d))
                end
            | _ => Raise ValueError
            end)
        | Some PyOtherType => Ret None
        end
  end.

(** The loop of [maybe_convert_values] over the items of [data]. *)
Fixpoint convert_items (model_class : model_class) (relationships : gset string)
    (rv : addr) (items : dict) (w : world) : outcome unit * world :=
  match items with
  | [] => (Ret tt, w)
  | (col_name, v) :: rest =>
      match class_getattr model_class col_name with
      | None => (Raise AttributeError, w)
      | Some col =>
          if decide (col_name ∈ relationships) then
            match loader_convert_identifiers self v (w_engine w) with
            | (Raise e, s) => (Raise e, with_engine w s)
            | (Ret v', s) =>
                convert_items model_class relationships rv rest
                  (store_set rv col_name v' (with_engine w s))
            end
          else
            match convert_scalar col v with
            | Raise e => (Raise e, w)
            | Ret None => convert_items model_class relationships rv rest w
            | Ret (Some v') =>
                convert_items model_class relationships rv rest
                  (store_set rv col_name v' w)
            end
      end
  end.

(** [maybe_convert_values(identifier, data)], [data] and the result
    being references to dictionaries. A reference always names a
    dictionary; for an address that names none the result is
    [Unmodelled]. *)
Definition maybe_convert_values (i : identifier) (data : addr) (w : world)
  : outcome addr * world :=
  match models self !! class_name i with
  | None => (Raise KeyError, w)
  | Some model_class =>
      match get_relationships (class_name i) with
      | Raise e => (Raise e, w)
      | Ret relationships =>
          match w_dicts w !! data with
          | None => (Raise Unmodelled, w)
          | Some d =>
              let rv := fresh (dom (w_dicts w)) in
              let w := {| w_engine := w_engine w;
                          w_dicts := <[rv := d]> (w_dicts w) |} in
              match convert_items model_class relationships rv d w with
              | (Raise e, w) => (Raise e, w)
              | (Ret _, w) => (Ret rv, w)
              end
          end
      end
  end.

End Factory.

(** An attribute whose column type is not the UUID type and has the
    Python type [t]: the semantic kind that selects a branch of
    [maybe_convert_values]. *)
Definition has_python_type (col : descriptor) (t : py_type) : Prop :=
  exists ty, attr_type col = Some ty /\ type_str ty <> "UUID" /\ python_type ty = Some t.

(** The value that the dictionary at [l] binds [k] to. *)
Definition store_get (w : world) (l : addr) (k : string) : option value :=
  w_dicts w !! l ≫= fun d => dict_get d k.

(** ** A schema and sessions to run the methods on *)

Module Fixture.

Definition text_type : column_type :=
  {| type_str := "VARCHAR"; python_type := Some PyOtherType |}.

Definition scalar (ty : column_type) : descriptor :=
  {| is_association_proxy := false;
     impl_uses_objects := Some false;
     attr_type := Some ty |}.

Definition relationship : descriptor :=
  {| is_association_proxy := false;
     impl_uses_objects := Some true;
     attr_type := None |}.

(** A hybrid property: an attribute with neither [impl] nor [type]. *)
Definition untyped : descriptor :=
  {| is_association_proxy := false;
     impl_uses_objects := None;
     attr_type := None |}.

Definition User : model_class :=
  {| cls_name := "User";
     columns :=
       [ {| col_name := "id"; primary_key := true; unique := false |};
         {| col_name := "email"; primary_key := false; unique := true |};
         {| col_name := "name"; primary_key := false; unique := false |} ];
     all_orm_descriptors :=
       [ ("id", scalar {| type_str := "INTEGER"; python_type := Some PyOtherType |});
         ("email", scalar text_type);
         ("name", scalar text_type);
         ("boss", relationship);
         ("nickname", untyped) ] |}.

Definition Event : model_class :=
  {| cls_name := "Event";
     columns :=
       [ {| col_name := "id"; primary_key := true; unique := false |};
         {| col_name := "d"; primary_key := false; unique := false |};
         {| col_name := "t"; primary_key := false; unique := false |};
         {| col_name := "dur"; primary_key := false; unique := false |};
         {| col_name := "u"; primary_key := false; unique := false |} ];
     all_orm_descriptors :=
       [ ("id", scalar {| type_str := "INTEGER"; python_type := Some PyOtherType |});
         ("d", scalar {| type_str := "DATE"; python_type := Some PyDate |});
         ("t", scalar {| type_str := "TIME"; python_type := Some PyTime |});
         ("dur", scalar {| type_str := "INTERVAL"; python_type := Some PyTimedelta |});
         ("u", scalar {| type_str := "UUID"; python_type := Some PyOtherType |}) ] |}.

(** A factory over the two classes, with the default date factory; the
    loader's conversion finds an identifier in the instance cache and
    leaves every other value as it is. *)
Definition fac : factory :=
  {| models := {[ "User" := User; "Event" := Event ]};
     date_factory := iso_date_factory;
     datetime_factory := fun v => Raise Unmodelled;
     loader_convert_identifiers := fun v s =>
       match v with
       | VIdentifier c k =>
           match default ∅ (model_instances s !! c) !! k with
           | Some a => (Ret (VInstance a), s)
           | None => (Raise KeyError, s)
           end
       | _ => (Ret v, s)
       end |}.

Definition alice : identifier := {| class_name := "User"; key := "alice" |}.
Definition ghost : identifier := {| class_name := "Ghost"; key := "k1" |}.
Definition party : identifier := {| class_name := "Event"; key := "party" |}.

(** A session that has loaded nothing yet, on an empty database. *)
Definition empty_session : engine :=
  {| model_instances := ∅; session := ∅; heap := ∅ |}.

Definition user_row (id : Z) (email name : string) : gmap string value :=
  {[ "id" := VInt id; "email" := VStr email; "name" := VStr name ]}.

Definition persistent_user (id : Z) (email name : string) : object :=
  {| o_class := User;
     o_attrs := user_row id email name;
     o_row := Some (user_row id email name) |}.

(** A fresh session on a database that an earlier run has filled: one
    user row, which the session has not loaded yet. *)
Definition second_run : engine :=
  {| model_instances := ∅;
     session := ∅;
     heap := {[ 1%positive := persistent_user 1 "a@x.com" "old" ]} |}.

(** As [second_run], after the record of [bob] has been created in this
    session: a pending user, added to the session and not flushed, so
    without a primary key. *)
Definition with_pending : engine :=
  {| model_instances := {[ "User" := {[ "bob" := 2%positive ]} ]};
     session := {[ 2%positive ]};
     heap := {[ 1%positive := persistent_user 1 "a@x.com" "old";
                2%positive := {| o_class := User;
                                 o_attrs := {[ "name" := VStr "bob" ]};
                                 o_row := None |} ]} |}.

(** A fresh session on a database with two rows of the same name. *)
Definition two_rows : engine :=
  {| model_instances := ∅;
     session := ∅;
     heap := {[ 1%positive := persistent_user 1 "a@x.com" "old";
                2%positive := persistent_user 2 "b@x.com" "old" ]} |}.

(** A record of the four kinds, held at address 1. *)
Definition party_record : dict :=
  [ ("d", VStr "2024-01-15");
    ("t", VStr "13:05:00");
    ("dur", VStr "2 days");
    ("u", VStr "3fae5c3e-7d1b-4c86-9a3f-2b8a4d6e1f00") ].

Definition party_world : world :=
  {| w_engine := empty_session; w_dicts := {[ 1%positive := party_record ]} |}.

(** A record with an attribute that has no type, held at address 1. *)
Definition nick_record : dict :=
  [ ("name", VStr "alice"); ("nickname", VOther "['al', 'ally']") ].

Definition nick_world : world :=
  {| w_engine := empty_session; w_dicts := {[ 1%positive := nick_record ]} |}.

End Fixture.

(** ** Construction of the factory

    [__init__] takes the models as a dictionary by name or as a list of
    classes, which it enters under their [__name__], and takes the two
    factories or falls back to those of [utils]. The module [utils] and
    the loader that owns the factory are not part of this module: they
    are arguments here. The instance cache starts empty. *)

Inductive models_arg :=
| ModelsDict (by_name : gmap string model_class)
| ModelsList (classes : list model_class).

(** [{model.__name__: model for model in models}]. *)
Definition models_by_name (classes : list model_class) : gmap string model_class :=
  foldl (fun m model => <[cls_name model := model]> m) ∅ classes.

Record utils := {
  utils_date_factory : value -> outcome value;
  utils_datetime_factory : value -> outcome value;
}.

Definition __init__ (u : utils)
    (loader : value -> engine -> outcome value * engine)
    (members : gset addr) (objects : gmap addr object)
    (models : models_arg)
    (date_factory datetime_factory : option (value -> outcome value))
  : factory * engine :=
  ({| models := match models with
                | ModelsDict by_name => by_name
                | ModelsList classes => models_by_name classes
                end;
      date_factory := default (utils_date_factory u) date_factory;
      datetime_factory := default (utils_datetime_factory u) datetime_factory;
      loader_convert_identifiers := loader |},
   {| model_instances := ∅; session := members; heap := objects |}).

(** What the result of the coercion binds the key of one item of the
    record to, [w] being the state before the item and [w'] the state
    at the end: for a relationship a value that the loader returned for
    the raw value, otherwise the value that the branch of the attribute's
    kind computes, or the value the dictionary had where the branch
    assigns nothing. *)
Definition item_converted (self : factory) (mc : model_class) (rels : gset string)
    (rv : addr) (w w' : world) (kv : string * value) : Prop :=
  exists col,
    class_getattr mc kv.1 = Some col
    /\ if decide (kv.1 ∈ rels) then
         exists s s' v',
           loader_convert_identifiers self kv.2 s = (Ret v', s')
           /\ store_get w' rv kv.1 = Some v'
       else
         match convert_scalar self col kv.2 with
         | Ret None => store_get w' rv kv.1 = store_get w rv kv.1
         | Ret (Some v') => store_get w' rv kv.1 = Some v'
         | Raise _ => False
         end.

(** ** Properties *)

(** *** The instance cache and the session *)

Lemma touch_instances_heap name s : heap (touch_instances name s) = heap s.
Proof. unfold touch_instances. by destruct (model_instances s !! name). Qed.

Lemma touch_instances_session name s :
  session (touch_instances name s) = session s.
Proof. unfold touch_instances. by destruct (model_instances s !! name). Qed.

Lemma touch_instances_cached name s i :
  cached (touch_instances name s) i = cached s i.
Proof.
  unfold touch_instances, cached.
  destruct (model_instances s !! name) eqn:E; [done|]. simpl.
  destruct (decide (name = class_name i)) as [->|Hne].
  - by rewrite lookup_insert_eq, E.
  - by rewrite lookup_insert_ne.
Qed.

Lemma isinstance_touch name s inst mc :
  isinstance (touch_instances name s) inst mc = isinstance s inst mc.
Proof. unfold isinstance. by rewrite touch_instances_heap. Qed.

Lemma in_session_touch name s inst :
  in_session (touch_instances name s) inst = in_session s inst.
Proof. unfold in_session. by rewrite touch_instances_session. Qed.

Lemma mapper_of_touch name s v :
  mapper_of (touch_instances name s) v = mapper_of s v.
Proof. unfold mapper_of. by rewrite touch_instances_heap. Qed.

Lemma session_query_touch name s mc flt :
  session_query (touch_instances name s) mc flt = session_query s mc flt.
Proof. unfold session_query. by rewrite touch_instances_heap. Qed.

Lemma check_filter_touch name mc rels s flt :
  check_filter mc rels (touch_instances name s) flt = check_filter mc rels s flt.
Proof.
  induction flt as [|[k v] flt IH]; simpl; [done|].
  rewrite mapper_of_touch, IH. done.
Qed.

Lemma filter_kwargs_touch name mc rels s data :
  filter_kwargs mc rels (touch_instances name s) data = filter_kwargs mc rels s data.
Proof.
  unfold filter_kwargs, fallback_filter, fallback_keeps.
  destruct (key_filter (columns mc) data); [|done].
  induction data as [|[k v] data IH]; simpl; [done|].
  rewrite mapper_of_touch, IH. done.
Qed.

Lemma cached_register i a s : cached (register i a s) i = Some a.
Proof.
  unfold cached, register. simpl.
  rewrite lookup_insert_eq. simpl. by rewrite lookup_insert_eq.
Qed.

Lemma touch_instances_register i a s :
  touch_instances (class_name i) (register i a s) = register i a s.
Proof. unfold touch_instances, register. simpl. by rewrite lookup_insert_eq. Qed.

Lemma in_session_register i a s : in_session (register i a s) (Some a) = true.
Proof.
  unfold in_session, register. simpl. apply bool_decide_eq_true. set_solver.
Qed.

(** The members of a query result are objects of the queried class. *)
Lemma session_query_class s mc flt a :
  a ∈ session_query s mc flt ->
  exists o, heap s !! a = Some o /\ o_class o = mc.
Proof.
  unfold session_query. intros Ha.
  apply list_elem_of_fmap in Ha as [[a' o] [-> Hin]].
  apply list_elem_of_In, filter_In in Hin as [Hin Hsel].
  apply list_elem_of_In, elem_of_map_to_list in Hin.
  unfold row_selected in Hsel. simpl in *.
  apply andb_true_iff in Hsel as [Hc _]. apply bool_decide_eq_true in Hc.
  eauto.
Qed.

Lemma one_or_none_some rows a : one_or_none rows = Ret (Some a) -> rows = [a].
Proof.
  destruct rows as [|b [|c rows]]; simpl; intros H; try discriminate.
  by inversion H.
Qed.

Section Engine.

Variable self : factory.

(** What [_get_existing] leaves of the state: only the [defaultdict]
    entry may be new. *)
Lemma get_existing_state i data s :
  (_get_existing self i data s).2 = s
  \/ (_get_existing self i data s).2 = touch_instances (class_name i) s.
Proof.
  unfold _get_existing, get_relationships.
  destruct (models self !! class_name i); [|by left]. right.
  repeat (case_match; simpl; try done).
Qed.

(** An instance the matcher returns is an object of the class. *)
Lemma get_existing_some i data s a s1 mc :
  models self !! class_name i = Some mc ->
  _get_existing self i data s = (Ret (Some a), s1) ->
  s1 = touch_instances (class_name i) s
  /\ exists o, heap s !! a = Some o /\ o_class o = mc.
Proof.
  intros Hmc. unfold _get_existing, get_relationships. rewrite Hmc.
  set (s' := touch_instances (class_name i) s).
  destruct (isinstance s' (cached s' i) mc && in_session s' (cached s' i)) eqn:Hhit.
  - intros [= Hc <-]. split; [done|].
    apply andb_true_iff in Hhit as [Hi _]. rewrite Hc in Hi.
    unfold isinstance in Hi. subst s'. rewrite touch_instances_heap in Hi.
    destruct (heap s !! a) as [o|]; [|done].
    apply bool_decide_eq_true in Hi. eauto.
  - destruct (filter_kwargs mc (relationship_names mc) s' data) as [|kv flt] eqn:Hf;
      [intros [=]|].
    destruct (check_filter mc (relationship_names mc) s' (kv :: flt)) as [[|]|];
      try (intros [=]; fail).
    intros [= Hq <-]. split; [done|].
    apply one_or_none_some in Hq.
    subst s'. rewrite session_query_touch in Hq.
    apply (session_query_class s mc (kv :: flt)). rewrite Hq. set_solver.
Qed.

End Engine.

(** *** Create or update *)

Section Reconcile.

Variable self : factory.

(** Cache tier: an identifier registered with a live object of its
    class is answered from the cache. *)
Lemma get_existing_registered i data a s mc o :
  models self !! class_name i = Some mc ->
  heap s !! a = Some o ->
  o_class o = mc ->
  _get_existing self i data (register i a s) = (Ret (Some a), register i a s).
Proof.
  intros Hmc Ho Hc. unfold _get_existing, get_relationships. rewrite Hmc.
  rewrite touch_instances_register, cached_register, in_session_register.
  unfold isinstance. simpl. rewrite Ho. simpl.
  rewrite bool_decide_eq_true_2 by done. done.
Qed.

Lemma update_instance_lookup a data s o :
  heap s !! a = Some o ->
  heap (update_instance a data s) !! a
  = Some {| o_class := o_class o;
            o_attrs := set_attrs data (o_attrs o);
            o_row := o_row o |}.
Proof. intros Ho. unfold update_instance. simpl. by rewrite lookup_alter_eq, Ho. Qed.

Lemma update_instance_other a b data s :
  a <> b -> heap (update_instance a data s) !! b = heap s !! b.
Proof. intros Hne. unfold update_instance. simpl. by rewrite lookup_alter_ne. Qed.

Lemma create_or_update_matched i data s a s1 :
  _get_existing self i data s = (Ret (Some a), s1) ->
  create_or_update self i data s
  = (Ret (a, false), register i a (update_instance a data s1)).
Proof. intros H. unfold create_or_update. by rewrite H. Qed.

(** C1 (amended). When a first [create_or_update] succeeds, the same
    call made again straight after returns [created = false] and the
    same instance; the first call returns [created = true] exactly when
    the matcher finds no existing instance. *)
Theorem reconcile_twice i data s a created s1 :
  create_or_update self i data s = (Ret (a, created), s1) ->
  (created = true <-> (_get_existing self i data s).1 = Ret None)
  /\ exists s2, create_or_update self i data s1 = (Ret (a, false), s2).
Proof.
  unfold create_or_update at 1.
  destruct (_get_existing self i data s) as [[[b|]|e] s'] eqn:E; simpl.
  - intros [= <- <- <-]. split; [split; discriminate|].
    destruct (models self !! class_name i) as [mc|] eqn:Hmc.
    2:{ unfold _get_existing in E. rewrite Hmc in E. discriminate. }
    destruct (get_existing_some self i data s b s' mc Hmc E) as [-> (o & Ho & Hc)].
    eexists. apply create_or_update_matched.
    eapply get_existing_registered; [done| |].
    + apply update_instance_lookup. by rewrite touch_instances_heap.
    + done.
  - destruct (models self !! class_name i) as [mc|] eqn:Hmc; [|discriminate].
    unfold construct. destruct (forallb _ data) eqn:Hk; [|discriminate].
    intros [= <- <- <-]. split; [done|].
    eexists. apply create_or_update_matched.
    eapply get_existing_registered; [done| |]; simpl.
    + apply lookup_insert_eq.
    + done.
  - discriminate.
Qed.

(** C3. For an identifier whose class name is not among the models,
    [create_or_update], the matcher and the coercion raise [KeyError]
    at once and leave the state as it was: nothing is constructed,
    added to the session or entered in the instance cache. *)
Theorem unknown_type_raises i data s d w :
  models self !! class_name i = None ->
  create_or_update self i data s = (Raise KeyError, s)
  /\ _get_existing self i data s = (Raise KeyError, s)
  /\ maybe_convert_values self i d w = (Raise KeyError, w).
Proof.
  intros Hmc. unfold create_or_update, _get_existing, maybe_convert_values.
  by rewrite Hmc.
Qed.

End Reconcile.

Lemma reconcile_twice_witness :
  create_or_update Fixture.fac Fixture.alice
    [("email", VStr "a@x.com"); ("name", VStr "old")] Fixture.empty_session
  = (Ret (1%positive, true),
     register Fixture.alice 1%positive
       {| model_instances := {[ "User" := ∅ ]};
          session := ∅;
          heap := {[ 1%positive :=
                       {| o_class := Fixture.User;
                          o_attrs := {[ "email" := VStr "a@x.com";
                                        "name" := VStr "old" ]};
                          o_row := None |} ]} |})
  /\ ((true = true <->
       (_get_existing Fixture.fac Fixture.alice
          [("email", VStr "a@x.com"); ("name", VStr "old")]
          Fixture.empty_session).1 = Ret None)
      /\ exists s2,
          create_or_update Fixture.fac Fixture.alice
            [("email", VStr "a@x.com"); ("name", VStr "old")]
            (register Fixture.alice 1%positive
               {| model_instances := {[ "User" := ∅ ]};
                  session := ∅;
                  heap := {[ 1%positive :=
                               {| o_class := Fixture.User;
                                  o_attrs := {[ "email" := VStr "a@x.com";
                                                "name" := VStr "old" ]};
                                  o_row := None |} ]} |})
          = (Ret (1%positive, false), s2)).
Proof.
  assert (H : create_or_update Fixture.fac Fixture.alice
    [("email", VStr "a@x.com"); ("name", VStr "old")] Fixture.empty_session
  = (Ret (1%positive, true),
     register Fixture.alice 1%positive
       {| model_instances := {[ "User" := ∅ ]};
          session := ∅;
          heap := {[ 1%positive :=
                       {| o_class := Fixture.User;
                          o_attrs := {[ "email" := VStr "a@x.com";
                                        "name" := VStr "old" ]};
                          o_row := None |} ]} |})) by (vm_compute; reflexivity).
  split; [exact H|].
  exact (reconcile_twice Fixture.fac _ _ _ _ _ _ H).
Defined.

Lemma unknown_type_raises_witness :
  models Fixture.fac !! class_name Fixture.ghost = None
  /\ create_or_update Fixture.fac Fixture.ghost [] Fixture.empty_session
     = (Raise KeyError, Fixture.empty_session).
Proof.
  split; [vm_compute; reflexivity|].
  apply (unknown_type_raises Fixture.fac Fixture.ghost [] Fixture.empty_session
           1%positive {| w_engine := Fixture.empty_session; w_dicts := ∅ |}).
  vm_compute; reflexivity.
Defined.

(** The claim that a first call always creates fails on a database that
    an earlier run has filled: the record of that run is matched on its
    unique column and the first call of the new session updates. *)
Lemma first_call_updates_existing_row :
  is_Some (models Fixture.fac !! class_name Fixture.alice)
  /\ (create_or_update Fixture.fac Fixture.alice
        [("email", VStr "a@x.com"); ("name", VStr "old")]
        Fixture.second_run).1
     = Ret (1%positive, false).
Proof. split; [by eexists|]. vm_compute. reflexivity. Qed.

(** *** Assignment of the attributes *)






(** *** References without identity *)






(** *** The filter of the query *)

Lemma dict_set_here d k v : (k, v) ∈ dict_set d k v.
Proof.
  induction d as [|[k' v'] d IH]; simpl; [apply list_elem_of_here|].
  destruct (decide (k' = k)) as [->|Hne];
    [apply list_elem_of_here|by apply list_elem_of_further].
Qed.

Lemma dict_set_elem_of d k0 v0 k v :
  (k, v) ∈ dict_set d k0 v0 -> (k, v) = (k0, v0) \/ (k, v) ∈ d.
Proof.
  induction d as [|[k' v'] d IH]; simpl.
  - intros H. apply list_elem_of_singleton in H. by left.
  - destruct (decide (k' = k0)) as [->|Hne]; intros H;
      apply elem_of_cons in H as [H|H].
    + by left.
    + right. by apply list_elem_of_further.
    + right. rewrite H. apply list_elem_of_here.
    + destruct (IH H) as [?|?]; [by left|right; by apply list_elem_of_further].
Qed.

Lemma dict_set_other d k0 v0 k v :
  (k, v) ∈ d -> k <> k0 -> (k, v) ∈ dict_set d k0 v0.
Proof.
  intros Hin Hne. induction d as [|[k' v'] d IH]; simpl; [by apply elem_of_nil in Hin|].
  apply elem_of_cons in Hin as [[= <- <-]|Hin].
  - rewrite decide_False by done. apply list_elem_of_here.
  - destruct (decide (k' = k0)); apply list_elem_of_further; [done|by apply IH].
Qed.

Lemma key_filter_foldl cols data acc k v :
  (forall k' v', (k', v') ∈ acc -> dict_get data k' = Some v') ->
  (k, v) ∈ foldl (key_filter_step data) acc cols
  <-> (k, v) ∈ acc \/ (is_key_column cols k /\ dict_get data k = Some v).
Proof.
  revert acc. induction cols as [|col cols IH]; intros acc Hacc; simpl.
  - split; [by left|]. intros [?|[(c & Hc & _) _]]; [done|by apply elem_of_nil in Hc].
  - assert (Hacc' : forall k' v', (k', v') ∈ key_filter_step data acc col ->
                                  dict_get data k' = Some v').
    { intros k' v'. unfold key_filter_step.
      destruct (dict_get data (col_name col)) as [w|] eqn:Hw; [|apply Hacc].
      destruct (primary_key col || unique col); [|apply Hacc].
      intros H. apply dict_set_elem_of in H as [[= -> ->]|H]; [done|by apply Hacc]. }
    rewrite (IH _ Hacc'). split.
    + intros [H|[(c & Hc & Hn & Hf) Hd]].
      * unfold key_filter_step in H.
        destruct (dict_get data (col_name col)) as [w|] eqn:Hw; [|by left].
        destruct (primary_key col || unique col) eqn:Hf; [|by left].
        apply dict_set_elem_of in H as [[= -> ->]|H]; [|by left].
        right. split; [|done]. exists col. split; [apply list_elem_of_here|done].
      * right. split; [|done]. exists c. split; [by apply list_elem_of_further|done].
    + intros [H|[(c & Hc & Hn & Hf) Hd]].
      * left. unfold key_filter_step.
        destruct (dict_get data (col_name col)) as [w|] eqn:Hw; [|done].
        destruct (primary_key col || unique col); [|done].
        destruct (decide (k = col_name col)) as [->|Hne]; [|by apply dict_set_other].
        rewrite (Hacc _ _ H) in Hw. injection Hw as ->. apply dict_set_here.
      * apply elem_of_cons in Hc as [->|Hc].
        -- left. unfold key_filter_step. rewrite Hn, Hd, Hf. apply dict_set_here.
        -- right. split; [|done]. by exists c.
Qed.

(** The key filter binds exactly the primary-key and unique columns that
    [data] gives a value for, each to that value. *)
Lemma key_filter_elem_of cols data k v :
  (k, v) ∈ key_filter cols data
  <-> is_key_column cols k /\ dict_get data k = Some v.
Proof.
  unfold key_filter. rewrite key_filter_foldl.
  - split; [intros [H|H]; [by apply elem_of_nil in H|done]|by right].
  - intros k' v' H. by apply elem_of_nil in H.
Qed.



Section Matcher.

Variable self : factory.

(** When the cache tier does not answer, the matcher is decided by the
    filter, the last loop and the query. *)
Lemma get_existing_miss i data s mc :
  models self !! class_name i = Some mc ->
  isinstance s (cached s i) mc && in_session s (cached s i) = false ->
  _get_existing self i data s
  = (match filter_kwargs mc (relationship_names mc) s data with
     | [] => Ret None
     | flt =>
         match check_filter mc (relationship_names mc) s flt with
         | Raise e => Raise e
         | Ret true => Ret None
         | Ret false => one_or_none (session_query s mc flt)
         end
     end, touch_instances (class_name i) s).
Proof.
  intros Hmc Hmiss. unfold _get_existing, get_relationships. rewrite Hmc.
  rewrite isinstance_touch, in_session_touch, !touch_instances_cached, Hmiss.
  rewrite filter_kwargs_touch.
  destruct (filter_kwargs mc (relationship_names mc) s data) as [|kv flt]; [done|].
  rewrite check_filter_touch, session_query_touch.
  by destruct (check_filter mc (relationship_names mc) s (kv :: flt)) as [[|]|].
Qed.


(** C9. When the matcher gets as far as the query and the query finds
    more than one row, [MultipleResultsFound] reaches the caller of
    the matcher and of [create_or_update]; no row is picked, and
    nothing is constructed, assigned or added to the session. *)
Theorem ambiguous_match_raises i data s mc :
  models self !! class_name i = Some mc ->
  isinstance s (cached s i) mc && in_session s (cached s i) = false ->
  filter_kwargs mc (relationship_names mc) s data <> [] ->
  check_filter mc (relationship_names mc) s
    (filter_kwargs mc (relationship_names mc) s data) = Ret false ->
  1 < length (session_query s mc (filter_kwargs mc (relationship_names mc) s data)) ->
  _get_existing self i data s
  = (Raise MultipleResultsFound, touch_instances (class_name i) s)
  /\ create_or_update self i data s
     = (Raise MultipleResultsFound, touch_instances (class_name i) s).
Proof.
  intros Hmc Hmiss Hne Hchk Hlen.
  assert (E : _get_existing self i data s
              = (Raise MultipleResultsFound, touch_instances (class_name i) s)).
  { rewrite (get_existing_miss i data s mc Hmc Hmiss).
    revert Hne Hchk Hlen.
    destruct (filter_kwargs mc (relationship_names mc) s data) as [|kv flt]; [done|].
    intros _ Hchk Hlen. cbv zeta. rewrite Hchk.
    destruct (session_query s mc (kv :: flt)) as [|a [|b rows]]; simpl in *;
      [lia|lia|done]. }
  split; [done|]. unfold create_or_update. by rewrite E.
Qed.

End Matcher.


Lemma ambiguous_match_raises_witness :
  length (session_query Fixture.two_rows Fixture.User [("name", VStr "old")]) = 2
  /\ create_or_update Fixture.fac Fixture.alice [("name", VStr "old")] Fixture.two_rows
     = (Raise MultipleResultsFound, touch_instances "User" Fixture.two_rows).
Proof.
  split; [vm_compute; reflexivity|].
  refine (proj2 (ambiguous_match_raises Fixture.fac Fixture.alice
                   [("name", VStr "old")] Fixture.two_rows Fixture.User _ _ _ _ _)).
  - vm_compute. reflexivity.
  - vm_compute. reflexivity.
  - vm_compute. discriminate.
  - vm_compute. reflexivity.
  - vm_compute. lia.
Defined.

(** *** Coercion of the values *)

Lemma dict_get_set_ne d k k' v : k <> k' -> dict_get (dict_set d k' v) k = dict_get d k.
Proof.
  intros Hne. induction d as [|[k0 v0] d IH]; simpl.
  - by rewrite decide_False.
  - destruct (decide (k0 = k')) as [->|Hne']; simpl.
    + by rewrite !decide_False.
    + by rewrite IH.
Qed.

Lemma store_set_dicts_ne rv k v w l :
  l <> rv -> w_dicts (store_set rv k v w) !! l = w_dicts w !! l.
Proof. intros Hne. unfold store_set. simpl. by rewrite lookup_alter_ne. Qed.

Lemma store_get_set_ne rv k k' v w :
  k <> k' -> store_get (store_set rv k' v w) rv k = store_get w rv k.
Proof.
  intros Hne. unfold store_get, store_set. simpl. rewrite lookup_alter_eq.
  destruct (w_dicts w !! rv); simpl; [by apply dict_get_set_ne|done].
Qed.





Lemma py_time_components args :
  length args <= 4 ->
  in_range 0 23 (nth 0 args 0%Z) && in_range 0 59 (nth 1 args 0%Z)
  && in_range 0 59 (nth 2 args 0%Z) && in_range 0 999999 (nth 3 args 0%Z) = true ->
  py_time args
  = Ret (VTime (nth 0 args 0%Z) (nth 1 args 0%Z) (nth 2 args 0%Z) (nth 3 args 0%Z)).
Proof.
  intros Hlen Hrange. unfold py_time.
  rewrite decide_False by lia.
  assert (Hfit : forallb fits_c_int (take 4 args) = true).
  { apply andb_true_iff in Hrange as [Hrange H3].
    apply andb_true_iff in Hrange as [Hrange H2].
    apply andb_true_iff in Hrange as [H0 H1].
    unfold in_range in *.
    destruct args as [|h [|m [|sec [|us [|]]]]]; simpl in *; try lia;
      unfold fits_c_int; repeat (apply andb_true_iff; split); lia. }
  rewrite Hfit. simpl. rewrite decide_False by lia. rewrite Hrange. simpl.
  by rewrite decide_False by lia.
Qed.

Section Coercion.

Variable self : factory.

(** The loop writes to the dictionary at [rv] only. *)
Lemma convert_items_frame mc rels rv items w l :
  l <> rv ->
  w_dicts (convert_items self mc rels rv items w).2 !! l = w_dicts w !! l.
Proof.
  intros Hne. revert w. induction items as [|[k v] items IH]; intros w; simpl; [done|].
  destruct (class_getattr mc k) as [col|]; [|done].
  destruct (decide (k ∈ rels)) as [Hk|Hk].
  - destruct (loader_convert_identifiers self v (w_engine w)) as [[v'|e] s']; [|done].
    rewrite IH. by rewrite store_set_dicts_ne.
  - destruct (convert_scalar self col v) as [[v'|]|e]; [| |done].
    + rewrite IH. by rewrite store_set_dicts_ne.
    + by rewrite IH.
Qed.




(** C7. [maybe_convert_values] returns a dictionary that did not exist
    before the call, and every dictionary that existed, the record it
    was given among them, holds after the call what it held before,
    whether the call returns or raises. *)
Theorem coerce_leaves_record i data w :
  (forall l, is_Some (w_dicts w !! l) ->
             w_dicts (maybe_convert_values self i data w).2 !! l = w_dicts w !! l)
  /\ (forall rv, (maybe_convert_values self i data w).1 = Ret rv ->
        rv <> data
        /\ w_dicts w !! rv = None
        /\ is_Some (w_dicts (maybe_convert_values self i data w).2 !! rv)
        /\ is_Some (w_dicts w !! data)).
Proof.
  assert (Hfresh : w_dicts w !! fresh (dom (w_dicts w)) = None).
  { apply not_elem_of_dom, is_fresh. }
  unfold maybe_convert_values, get_relationships.
  destruct (models self !! class_name i) as [mc|]; [|by split].
  destruct (w_dicts w !! data) as [d|] eqn:Hd; [|by split].
  set (rv := fresh (dom (w_dicts w))) in *.
  set (w0 := {| w_engine := w_engine w; w_dicts := <[rv := d]> (w_dicts w) |}).
  assert (Hframe : forall l, is_Some (w_dicts w !! l) ->
            w_dicts (convert_items self mc (relationship_names mc) rv d w0).2 !! l
            = w_dicts w !! l).
  { intros l [x Hl].
    assert (l <> rv) by (intros ->; congruence).
    rewrite convert_items_frame by done. subst w0. simpl.
    by rewrite lookup_insert_ne. }
  destruct (convert_items self mc (relationship_names mc) rv d w0)
    as [[[]|e] w1] eqn:E; simpl in *; (split; [done|]); [|done].
  intros ? [= <-]. split; [intros ->; congruence|]. split; [done|]. split; [|done].
  assert (Hkeep : forall items w2, is_Some (w_dicts w2 !! rv) ->
            is_Some (w_dicts (convert_items self mc (relationship_names mc) rv items w2).2 !! rv)).
  { clear. induction items as [|[k v] items IH]; intros w2 Hw2; simpl; [done|].
    destruct (class_getattr mc k) as [col|]; [|done].
    assert (Hset : forall v' w3, is_Some (w_dicts w3 !! rv) ->
              is_Some (w_dicts (store_set rv k v' w3) !! rv)).
    { intros v' w3 [x Hx]. unfold store_set. simpl.
      rewrite lookup_alter_eq, Hx. by eexists. }
    destruct (decide (k ∈ relationship_names mc)) as [Hk|Hk].
    - destruct (loader_convert_identifiers self v (w_engine w2)) as [[v'|e] s']; [|done].
      apply IH, Hset. done.
    - destruct (convert_scalar self col v) as [[v'|]|e]; [| |done].
      + by apply IH, Hset.
      + by apply IH. }
  specialize (Hkeep d w0). rewrite E in Hkeep. apply Hkeep.
  subst w0. simpl. rewrite lookup_insert_eq. by eexists.
Qed.

End Coercion.

Section Kinds.

Variable self : factory.



End Kinds.



(** C6. With the default date factory, the record
    [{d: "2024-01-15", t: "13:05:00", dur: "2 days", u: "3fae..."}] of a
    class whose attributes [d], [t], [dur] and [u] are of the date, time,
    duration and UUID kinds is coerced to the date 15 January 2024, the
    time 13:05:00, the duration of two days and the same UUID text; a
    UUID-kind value of any sort is passed as it is. *)
Theorem coercion_by_kind :
  (exists rv w',
     maybe_convert_values Fixture.fac Fixture.party 1%positive Fixture.party_world
     = (Ret rv, w')
     /\ w_dicts w' !! rv
        = Some [ ("d", VDate 2024 1 15);
                 ("t", VTime 13 5 0 0);
                 ("dur", VTimedelta 2 0 0);
                 ("u", VStr "3fae5c3e-7d1b-4c86-9a3f-2b8a4d6e1f00") ])
  /\ (forall (self : factory) (col : descriptor) (ty : column_type) (v : value),
        attr_type col = Some ty -> type_str ty = "UUID" ->
        convert_scalar self col v = Ret (Some v)).
Proof.
  split.
  - eexists _, _. split; vm_compute; reflexivity.
  - intros self col ty v Hty Hstr. unfold convert_scalar.
    by rewrite Hty, decide_True.
Qed.

(** *** A record applied after another *)

Section Sequence.

Variable self : factory.



End Sequence.

(** A relationship attribute that holds [None] enters the fallback
    filter, and the loop over the filter then asks [None] for its
    [__mapper__]. *)
Lemma null_relationship_raises :
  (_get_existing Fixture.fac Fixture.alice
     [("boss", VNone); ("name", VStr "alice")] Fixture.empty_session).1
  = Raise AttributeError.
Proof. vm_compute. reflexivity. Qed.

(** ** Further properties of the factory *)

(** *** The registry of models and the relationships *)

Lemma models_by_name_foldl_elem classes (acc : gmap string model_class) name c :
  foldl (fun m model => <[cls_name model := model]> m) acc classes !! name = Some c ->
  (c ∈ classes /\ cls_name c = name) \/ acc !! name = Some c.
Proof.
  revert acc. induction classes as [|c0 classes IH]; intros acc; simpl; [by right|].
  intros H. apply IH in H as [[Hin Hn]|H].
  - left. split; [by apply list_elem_of_further|done].
  - destruct (decide (cls_name c0 = name)) as [Heq|Hne].
    + rewrite <- Heq, lookup_insert_eq in H. injection H as ->.
      left. split; [apply list_elem_of_here|done].
    + rewrite lookup_insert_ne in H by done. by right.
Qed.

Lemma models_by_name_foldl_other classes (acc : gmap string model_class) name :
  name ∉ map cls_name classes ->
  foldl (fun m model => <[cls_name model := model]> m) acc classes !! name = acc !! name.
Proof.
  revert acc. induction classes as [|c0 classes IH]; intros acc; simpl; [done|].
  intros Hn. apply not_elem_of_cons in Hn as [Hne Hn].
  rewrite IH by done. by rewrite lookup_insert_ne.
Qed.

Lemma models_by_name_foldl_listed classes (acc : gmap string model_class) c :
  NoDup (map cls_name classes) ->
  c ∈ classes ->
  foldl (fun m model => <[cls_name model := model]> m) acc classes !! cls_name c = Some c.
Proof.
  revert acc. induction classes as [|c0 classes IH]; intros acc Hnd Hin; simpl in *.
  - by apply elem_of_nil in Hin.
  - apply NoDup_cons in Hnd as [Hc0 Hnd].
    apply elem_of_cons in Hin as [->|Hin]; [|by apply IH].
    rewrite models_by_name_foldl_other by done. apply lookup_insert_eq.
Qed.

(** X16. A factory built from a list of classes knows a class under a
    name only if the class is listed and bears that name; when the names
    of the list are distinct every listed class is found under its own
    name; and for an identifier that names no listed class
    [create_or_update] raises [KeyError] and changes nothing. The
    instance cache of the new factory is empty. *)
Theorem init_registers_listed_classes u loader members objects classes df dtf :
  (forall name c,
      models (__init__ u loader members objects (ModelsList classes) df dtf).1 !! name
      = Some c ->
      c ∈ classes /\ cls_name c = name)
  /\ (NoDup (map cls_name classes) ->
      forall c, c ∈ classes ->
        models (__init__ u loader members objects (ModelsList classes) df dtf).1
          !! cls_name c = Some c)
  /\ (forall i data s,
        class_name i ∉ map cls_name classes ->
        create_or_update (__init__ u loader members objects (ModelsList classes) df dtf).1
          i data s = (Raise KeyError, s))
  /\ (forall i,
        cached (__init__ u loader members objects (ModelsList classes) df dtf).2 i = None).
Proof.
  simpl. unfold models_by_name. split; [|split; [|split]].
  - intros name c H. apply models_by_name_foldl_elem in H as [H|H]; [done|].
    by rewrite lookup_empty in H.
  - intros Hnd c Hin. by apply models_by_name_foldl_listed.
  - intros i data s Hn. unfold create_or_update, _get_existing. simpl.
    unfold models_by_name. rewrite models_by_name_foldl_other by done.
    by rewrite lookup_empty.
  - intros i. unfold cached. simpl. by rewrite lookup_empty.
Qed.

Lemma relationship_names_foldl ds acc k :
  k ∈ foldl (fun (rv : gset string) (nd : string * descriptor) =>
               if is_relationship nd.2 then rv ∪ {[nd.1]} else rv) acc ds
  <-> k ∈ acc \/ exists d, (k, d) ∈ ds /\ is_relationship d = true.
Proof.
  revert acc. induction ds as [|[n d0] ds IH]; intros acc; simpl.
  - split; [by left|]. intros [?|(d & Hd & _)]; [done|by apply elem_of_nil in Hd].
  - rewrite IH. split.
    + intros [H|(d & Hd & Hr)].
      * destruct (is_relationship d0) eqn:Hr0; [|by left].
        apply elem_of_union in H as [H|H]; [by left|].
        apply elem_of_singleton in H as ->.
        right. exists d0. split; [apply list_elem_of_here|done].
      * right. exists d. split; [by apply list_elem_of_further|done].
    + intros [H|(d & Hd & Hr)].
      * left. destruct (is_relationship d0); [|done].
        apply elem_of_union. by left.
      * apply elem_of_cons in Hd as [[= -> ->]|Hd].
        -- left. rewrite Hr. apply elem_of_union. right. by apply elem_of_singleton.
        -- right. by exists d.
Qed.

(** X1. [get_relationships] raises [KeyError] for a name that is not
    among the models; for a model it returns the set of exactly those
    names of [all_orm_descriptors] whose descriptor is an association
    proxy or has an [impl] that uses objects. *)
Theorem get_relationships_spec (self : factory) name :
  match models self !! name with
  | None => get_relationships self name = Raise KeyError
  | Some mc =>
      exists rels,
        get_relationships self name = Ret rels
        /\ forall k, k ∈ rels
                     <-> exists d, (k, d) ∈ all_orm_descriptors mc
                                   /\ (is_association_proxy d = true
                                       \/ impl_uses_objects d = Some true)
  end.
Proof.
  unfold get_relationships. destruct (models self !! name) as [mc|]; [|done].
  eexists. split; [done|]. intros k. unfold relationship_names.
  rewrite relationship_names_foldl. split.
  - intros [H|(d & Hd & Hr)]; [by apply not_elem_of_empty in H|].
    exists d. split; [done|]. unfold is_relationship in Hr.
    apply orb_true_iff in Hr as [Hr|Hr]; [by left|right].
    by destruct (impl_uses_objects d) as [[]|].
  - intros (d & Hd & Hr). right. exists d. split; [done|].
    unfold is_relationship. destruct Hr as [-> | ->]; [done|]. apply orb_true_r.
Qed.

(** *** What the matcher and [create_or_update] change *)

Lemma cached_register_ne i j a s : j <> i -> cached (register i a s) j = cached s j.
Proof.
  intros Hne. unfold cached, register. simpl.
  destruct (decide (class_name i = class_name j)) as [Hc|Hc].
  - rewrite Hc, lookup_insert_eq. simpl.
    rewrite lookup_insert_ne; [by rewrite <- Hc|].
    intros Hk. apply Hne. destruct i, j. simpl in *. congruence.
  - by rewrite lookup_insert_ne.
Qed.


Section Effects.

Variable self : factory.

Lemma get_existing_state_known i data s mc :
  models self !! class_name i = Some mc ->
  (_get_existing self i data s).2 = touch_instances (class_name i) s.
Proof.
  intros Hmc. unfold _get_existing, get_relationships. rewrite Hmc.
  repeat (case_match; simpl; try done).
Qed.

(** The two ways in which [create_or_update] returns. *)
Lemma create_or_update_inv i data s a created s1 :
  create_or_update self i data s = (Ret (a, created), s1) ->
  exists mc,
    models self !! class_name i = Some mc
    /\ ((created = false
         /\ (exists o, heap s !! a = Some o /\ o_class o = mc)
         /\ s1 = register i a
                   (update_instance a data (touch_instances (class_name i) s)))
        \/ (created = true
            /\ a = fresh (dom (heap s))
            /\ s1 = register i a
                      {| model_instances :=
                           model_instances (touch_instances (class_name i) s);
                         session := session s;
                         heap := <[a := {| o_class := mc;
                                           o_attrs := set_attrs data ∅;
                                           o_row := None |}]> (heap s) |})).
Proof.
  unfold create_or_update.
  destruct (models self !! class_name i) as [mc|] eqn:Hmc.
  2:{ unfold _get_existing. by rewrite Hmc. }
  pose proof (get_existing_state_known i data s mc Hmc) as Hst.
  destruct (_get_existing self i data s) as [[[b|]|e] s'] eqn:E; simpl in Hst;
    [| |done]; subst s'.
  - intros [= <- <- <-]. exists mc. split; [done|]. left.
    destruct (get_existing_some self i data s b _ mc Hmc E) as [_ Ho]. done.
  - unfold construct. destruct (forallb _ data); [|done].
    rewrite touch_instances_heap, touch_instances_session.
    intros [= <- <- <-]. exists mc. split; [done|]. by right.
Qed.

(** X2. The matcher never writes to the instance cache: whatever it
    returns or raises, the cache holds for every identifier the instance
    it held and every dictionary of the cache is what it was; the one
    entry that may be new is the empty dictionary that the
    [defaultdict] makes for the class name of the identifier. And an
    exception of the matcher goes through [create_or_update] as it is,
    nothing having been entered in the cache. *)
Theorem matcher_keeps_cache i data s :
  (forall j, cached (_get_existing self i data s).2 j = cached s j)
  /\ (forall name m,
        model_instances s !! name = Some m ->
        model_instances (_get_existing self i data s).2 !! name = Some m)
  /\ (forall name m,
        model_instances (_get_existing self i data s).2 !! name = Some m ->
        model_instances s !! name = Some m \/ (name = class_name i /\ m = ∅))
  /\ (forall e,
        (_get_existing self i data s).1 = Raise e ->
        (create_or_update self i data s).1 = Raise e
        /\ forall j, cached (create_or_update self i data s).2 j = cached s j).
Proof.
  assert (Hc : forall j, cached (_get_existing self i data s).2 j = cached s j).
  { intros j. destruct (get_existing_state self i data s) as [-> | ->]; [done|].
    apply touch_instances_cached. }
  split; [done|]. split; [|split].
  - intros name m Hm.
    destruct (get_existing_state self i data s) as [-> | ->]; [done|].
    unfold touch_instances.
    destruct (model_instances s !! class_name i) eqn:Hi; [done|]. simpl.
    rewrite lookup_insert_ne; [done|]. intros <-. congruence.
  - intros name m.
    destruct (get_existing_state self i data s) as [-> | ->]; [by left|].
    unfold touch_instances.
    destruct (model_instances s !! class_name i) eqn:Hi; [by left|]. simpl.
    destruct (decide (class_name i = name)) as [<-|Hne].
    + rewrite lookup_insert_eq. intros [= <-]. by right.
    + rewrite lookup_insert_ne by done. by left.
  - intros e He. unfold create_or_update.
    destruct (_get_existing self i data s) as [r s'] eqn:Eg. simpl in *.
    subst r. simpl. split; [done|]. intros j. specialize (Hc j). by simpl in Hc.
Qed.

(** X4. When [create_or_update] returns an instance, the instance is in
    the session and no member of the session has left it, the cache
    holds the instance for the identifier, and for every other
    identifier it holds what it held before. *)
Theorem create_or_update_frame i data s a created s1 :
  create_or_update self i data s = (Ret (a, created), s1) ->
  a ∈ session s1
  /\ session s ⊆ session s1
  /\ cached s1 i = Some a
  /\ (forall j, j <> i -> cached s1 j = cached s j).
Proof.
  intros E.
  assert (Hs : exists s', s1 = register i a s'
                          /\ session s' = session s
                          /\ forall j, cached s' j = cached s j).
  { apply create_or_update_inv in E as (mc & Hmc & [(_ & _ & ->)|(_ & _ & ->)]);
      eexists; (split; [done|]); simpl.
    - split; [apply touch_instances_session|]. intros j.
      apply touch_instances_cached.
    - split; [done|]. intros j. unfold cached. simpl.
      apply touch_instances_cached. }
  destruct Hs as (s' & -> & Hsess & Hc).
  split; [unfold register; simpl; apply elem_of_union; right;
          by apply elem_of_singleton|].
  split; [unfold register; simpl; rewrite Hsess; intros x Hx;
          apply elem_of_union; by left|].
  split; [apply cached_register|].
  intros j Hj. rewrite cached_register_ne by done. apply Hc.
Qed.


(** X9. Once [create_or_update] has returned an instance for an
    identifier, the matcher answers that identifier from the cache,
    whatever record it is asked with: it returns the same instance and
    raises nothing; so a [create_or_update] for that identifier that
    returns, with whatever record, returns that instance with
    [created = false]. *)
Theorem cached_instance_answers i data s a created s1 :
  create_or_update self i data s = (Ret (a, created), s1) ->
  forall data',
    (_get_existing self i data' s1).1 = Ret (Some a)
    /\ (forall b created' s2,
          create_or_update self i data' s1 = (Ret (b, created'), s2) ->
          b = a /\ created' = false).
Proof.
  intros E data'.
  assert (H : _get_existing self i data' s1 = (Ret (Some a), s1)).
  { apply create_or_update_inv in E as (mc & Hmc & [(-> & (o & Ho & Hc) & ->)
                                                   |(-> & Ha & ->)]).
    - eapply get_existing_registered; [done| |].
      + apply update_instance_lookup. by rewrite touch_instances_heap.
      + done.
    - eapply get_existing_registered; [done| |]; simpl.
      + apply lookup_insert_eq.
      + done. }
  split; [by rewrite H|].
  intros b created' s2. rewrite (create_or_update_matched self i data' s1 a s1 H).
  by intros [= <- <- _].
Qed.

End Effects.

(** *** What the query tier matches *)

(** The rows a query returns: the objects of the class whose flushed
    row satisfies the filter. *)
Lemma session_query_elem_of s mc flt b :
  b ∈ session_query s mc flt
  <-> exists o row,
        heap s !! b = Some o /\ o_class o = mc /\ o_row o = Some row
        /\ row_matches flt row = true.
Proof.
  unfold session_query. split.
  - intros Hb. apply list_elem_of_fmap in Hb as [[b' o] [-> Hin]].
    apply list_elem_of_In, filter_In in Hin as [Hin Hsel].
    apply list_elem_of_In, elem_of_map_to_list in Hin.
    unfold row_selected in Hsel. simpl in *.
    apply andb_true_iff in Hsel as [Hc Hrow]. apply bool_decide_eq_true in Hc.
    destruct (o_row o) as [row|] eqn:Hr; [|done]. by exists o, row.
  - intros (o & row & Ho & Hc & Hr & Hm).
    apply list_elem_of_fmap. exists (b, o). split; [done|].
    apply list_elem_of_In, filter_In. split.
    + by apply list_elem_of_In, elem_of_map_to_list.
    + unfold row_selected. simpl. rewrite Hr, Hm.
      by rewrite bool_decide_eq_true_2.
Qed.

Lemma filter_none {A} (f : A -> bool) (l : list A) :
  Forall (fun x => f x = false) l -> List.filter f l = [].
Proof. induction 1 as [|x l Hx _ IH]; simpl; [done|]. by rewrite Hx. Qed.

Lemma key_filter_nil cols data :
  (forall k, is_key_column cols k -> dict_get data k = None) ->
  key_filter cols data = [].
Proof.
  intros H. destruct (key_filter cols data) as [|[k v] flt] eqn:E; [done|].
  assert (Hin : (k, v) ∈ key_filter cols data) by (rewrite E; apply list_elem_of_here).
  apply key_filter_elem_of in Hin as [Hk Hv]. rewrite (H k Hk) in Hv. done.
Qed.

Section Tiers.

Variable self : factory.

(** An instance returned when the cache does not answer is the one row
    of the query. *)
Lemma get_existing_from_query i data s mc a s1 :
  models self !! class_name i = Some mc ->
  isinstance s (cached s i) mc && in_session s (cached s i) = false ->
  _get_existing self i data s = (Ret (Some a), s1) ->
  session_query s mc (filter_kwargs mc (relationship_names mc) s data) = [a].
Proof.
  intros Hmc Hmiss E. rewrite (get_existing_miss self i data s mc Hmc Hmiss) in E.
  destruct (filter_kwargs mc (relationship_names mc) s data) as [|kv flt']; [done|].
  cbv zeta in E.
  destruct (check_filter mc (relationship_names mc) s (kv :: flt')) as [[|]|];
    [done| |done].
  injection E as E _. by apply one_or_none_some.
Qed.

(** X6. A record that gives nothing to filter on is never looked up in
    the database: when the cache does not answer, the record names no
    primary-key or unique column, and none of its values is [None], a
    [bool], [int], [str] or [float], or a mapped instance under a
    relationship attribute (so an empty record, or one made of dates,
    times, durations and collections), the matcher returns [None]
    without a query; [create_or_update] then matches nothing: when it
    returns, it returns a new instance with [created = true]. *)
Theorem unfilterable_record_creates i data s mc :
  models self !! class_name i = Some mc ->
  isinstance s (cached s i) mc && in_session s (cached s i) = false ->
  (forall k, is_key_column (columns mc) k -> dict_get data k = None) ->
  Forall (fun kv => is_none kv.2 = false
                    /\ is_primitive kv.2 = false
                    /\ (kv.1 ∈ relationship_names mc -> mapper_of s kv.2 = None)) data ->
  _get_existing self i data s = (Ret None, touch_instances (class_name i) s)
  /\ (forall b created s1,
        create_or_update self i data s = (Ret (b, created), s1) ->
        created = true /\ heap s !! b = None).
Proof.
  intros Hmc Hmiss Hkey Hvals.
  assert (E : _get_existing self i data s
              = (Ret None, touch_instances (class_name i) s)).
  { rewrite (get_existing_miss self i data s mc Hmc Hmiss).
    unfold filter_kwargs. rewrite key_filter_nil by done.
    unfold fallback_filter. rewrite filter_none; [done|].
    eapply Forall_impl; [exact Hvals|]. intros [k v] (Hn & Hp & Hr). simpl in *.
    unfold fallback_keeps. simpl. rewrite Hn, Hp, !orb_false_r.
    destruct (decide (k ∈ relationship_names mc)) as [Hk|Hk].
    - rewrite (Hr Hk). rewrite (bool_decide_eq_false_2 (is_Some None));
        [apply andb_false_r|]. by intros [? ?].
    - by rewrite bool_decide_eq_false_2. }
  split; [done|]. intros b created s1.
  unfold create_or_update. rewrite E, Hmc. unfold construct.
  destruct (forallb _ data); [|done]. intros [= <- <- _]. split; [done|].
  rewrite touch_instances_heap. apply not_elem_of_dom, is_fresh.
Qed.

End Tiers.

Section Pending.

Variable self : factory.

(** Where an instance that the matcher returns comes from: the cache, or
    a row of the database. *)
Lemma get_existing_some_origin i data s a s1 :
  _get_existing self i data s = (Ret (Some a), s1) ->
  cached s i = Some a
  \/ exists o row, heap s !! a = Some o /\ o_row o = Some row.
Proof.
  destruct (models self !! class_name i) as [mc|] eqn:Hmc.
  2:{ unfold _get_existing. by rewrite Hmc. }
  destruct (isinstance s (cached s i) mc && in_session s (cached s i)) eqn:Hhit.
  - unfold _get_existing, get_relationships. rewrite Hmc.
    rewrite isinstance_touch, in_session_touch, !touch_instances_cached, Hhit.
    intros [= -> _]. by left.
  - intros E. right.
    pose proof (get_existing_from_query self i data s mc a s1 Hmc Hhit E) as Hq.
    assert (Hin : a ∈ session_query s mc
                    (filter_kwargs mc (relationship_names mc) s data))
      by (rewrite Hq; apply list_elem_of_here).
    apply session_query_elem_of in Hin as (o & row & Ho & _ & Hr & _).
    by exists o, row.
Qed.

(** X17. An instance that [create_or_update] has just created is not in
    the database, and the query, which runs without autoflush, does not
    see it: a [create_or_update] for another identifier made straight
    after the creation, with nothing flushed in between, never returns
    that instance, whatever its record, even one with the same unique
    values. *)
Theorem pending_instance_not_shared i data s a s1 j data' b created s2 :
  create_or_update self i data s = (Ret (a, true), s1) ->
  j <> i ->
  (forall x, cached s j = Some x -> is_Some (heap s !! x)) ->
  create_or_update self j data' s1 = (Ret (b, created), s2) ->
  b <> a.
Proof.
  intros E Hj Hwf E2.
  apply create_or_update_inv in E as (mc & Hmc & [([=] & _)|(_ & Ha & Hs1)]).
  assert (Hfresh : heap s !! a = None) by (subst a; apply not_elem_of_dom, is_fresh).
  assert (Hnew : exists o, heap s1 !! a = Some o /\ o_row o = None).
  { subst s1. unfold register. simpl. rewrite lookup_insert_eq. by eexists. }
  assert (Hcache : cached s1 j <> Some a).
  { subst s1. rewrite cached_register_ne by done.
    unfold cached. simpl. fold (cached (touch_instances (class_name i) s) j).
    rewrite touch_instances_cached. intros Hc.
    destruct (Hwf a Hc) as [o Ho]. congruence. }
  unfold create_or_update in E2.
  destruct (_get_existing self j data' s1) as [[[x|]|e] s'] eqn:Eg; [| |done].
  - injection E2 as <- _ _.
    apply get_existing_some_origin in Eg as [Hc|(o & row & Ho & Hr)]; [congruence|].
    intros ->. destruct Hnew as (o' & Ho' & Hr'). congruence.
  - destruct (models self !! class_name j) as [mcj|] eqn:Hmcj; [|done].
    pose proof (get_existing_state_known self j data' s1 mcj Hmcj) as Hst.
    rewrite Eg in Hst. simpl in Hst. subst s'.
    unfold construct in E2. destruct (forallb _ data'); [|done].
    injection E2 as <- _ _. rewrite touch_instances_heap.
    intros Hb. destruct Hnew as (o' & Ho' & _).
    assert (Hf : heap s1 !! fresh (dom (heap s1)) = None)
      by apply not_elem_of_dom, is_fresh.
    rewrite Hb in Hf. congruence.
Qed.

End Pending.

(** *** The properties at work on the sample schema *)

Lemma create_or_update_frame_witness :
  1%positive ∈ session (create_or_update Fixture.fac Fixture.alice
                          [("email", VStr "a@x.com"); ("name", VStr "new")]
                          Fixture.with_pending).2
  /\ cached (create_or_update Fixture.fac Fixture.alice
               [("email", VStr "a@x.com"); ("name", VStr "new")]
               Fixture.with_pending).2 {| class_name := "User"; key := "bob" |}
     = Some 2%positive.
Proof.
  pose proof (create_or_update_frame Fixture.fac Fixture.alice
                [("email", VStr "a@x.com"); ("name", VStr "new")]
                Fixture.with_pending 1%positive false
                (create_or_update Fixture.fac Fixture.alice
                   [("email", VStr "a@x.com"); ("name", VStr "new")]
                   Fixture.with_pending).2) as H.
  destruct H as (Hin & _ & _ & Hframe); [vm_compute; reflexivity|].
  split; [exact Hin|]. rewrite Hframe; [vm_compute; reflexivity|discriminate].
Defined.


Lemma cached_instance_answers_witness :
  (_get_existing Fixture.fac Fixture.alice [("no_such_attribute", VNone)]
     (create_or_update Fixture.fac Fixture.alice
        [("email", VStr "a@x.com")] Fixture.empty_session).2).1
  = Ret (Some 1%positive).
Proof.
  refine (proj1 (cached_instance_answers Fixture.fac Fixture.alice
                   [("email", VStr "a@x.com")] Fixture.empty_session 1%positive true
                   _ _ [("no_such_attribute", VNone)])).
  vm_compute. reflexivity.
Defined.


Lemma unfilterable_record_creates_witness :
  _get_existing Fixture.fac Fixture.party
    [("d", VDate 2024 1 15); ("dur", VTimedelta 2 0 0)] Fixture.empty_session
  = (Ret None, touch_instances "Event" Fixture.empty_session).
Proof.
  refine (proj1 (unfilterable_record_creates Fixture.fac Fixture.party
                   [("d", VDate 2024 1 15); ("dur", VTimedelta 2 0 0)]
                   Fixture.empty_session Fixture.Event _ _ _ _)).
  - vm_compute. reflexivity.
  - vm_compute. reflexivity.
  - intros k (col & Hin & Hn & Hf). simpl in Hin.
    apply elem_of_cons in Hin as [-> | Hin]; [by subst k|].
    apply elem_of_cons in Hin as [-> | Hin]; [discriminate|].
    apply elem_of_cons in Hin as [-> | Hin]; [discriminate|].
    apply elem_of_cons in Hin as [-> | Hin]; [discriminate|].
    apply elem_of_cons in Hin as [-> | Hin]; [discriminate|].
    by apply elem_of_nil in Hin.
  - apply Forall_cons. split.
    { split; [reflexivity|]. split; [reflexivity|]. intros _. reflexivity. }
    apply Forall_cons. split.
    { split; [reflexivity|]. split; [reflexivity|]. intros _. reflexivity. }
    constructor.
Defined.

Lemma pending_instance_not_shared_witness :
  (create_or_update Fixture.fac {| class_name := "User"; key := "bob" |}
     [("email", VStr "a@x.com")]
     (create_or_update Fixture.fac Fixture.alice
        [("email", VStr "a@x.com")] Fixture.empty_session).2).1
  = Ret (2%positive, true)
  /\ 2%positive <> 1%positive.
Proof.
  split; [vm_compute; reflexivity|].
  apply (pending_instance_not_shared Fixture.fac Fixture.alice
           [("email", VStr "a@x.com")] Fixture.empty_session 1%positive
           (create_or_update Fixture.fac Fixture.alice
              [("email", VStr "a@x.com")] Fixture.empty_session).2
           {| class_name := "User"; key := "bob" |}
           [("email", VStr "a@x.com")] 2%positive true
           (create_or_update Fixture.fac {| class_name := "User"; key := "bob" |}
              [("email", VStr "a@x.com")]
              (create_or_update Fixture.fac Fixture.alice
                 [("email", VStr "a@x.com")] Fixture.empty_session).2).2).
  - vm_compute. reflexivity.
  - discriminate.
  - intros x Hx. vm_compute in Hx. discriminate.
  - vm_compute. reflexivity.
Defined.

(** *** The record that the coercion returns *)

Lemma dict_keys_set d k v : k ∈ dict_keys d -> dict_keys (dict_set d k v) = dict_keys d.
Proof.
  induction d as [|[k0 v0] d IH]; simpl; [by intros ?%elem_of_nil|].
  destruct (decide (k0 = k)) as [->|Hne]; simpl; [done|].
  intros [?|Hin]%elem_of_cons; [congruence|]. by rewrite IH.
Qed.

Lemma dict_set_same d k v :
  NoDup (dict_keys d) -> (k, v) ∈ d -> dict_set d k v = d.
Proof.
  induction d as [|[k0 v0] d IH]; simpl; [by intros _ ?%elem_of_nil|].
  intros [Hk0 Hnd]%NoDup_cons Hin.
  destruct (decide (k0 = k)) as [->|Hne].
  - apply elem_of_cons in Hin as [[= ->]|Hin]; [done|].
    exfalso. apply Hk0. apply list_elem_of_fmap. by exists (k, v).
  - apply elem_of_cons in Hin as [[= -> ->]|Hin]; [done|]. by rewrite IH.
Qed.

Lemma store_set_same rv k v w d :
  w_dicts w !! rv = Some d -> dict_set d k v = d -> store_set rv k v w = w.
Proof.
  intros Hd Hset. unfold store_set. destruct w as [s ds]. simpl in *. f_equal.
  apply map_eq. intros l. destruct (decide (l = rv)) as [->|Hne].
  - by rewrite lookup_alter_eq, Hd; simpl; rewrite Hset.
  - by rewrite lookup_alter_ne.
Qed.

Section Records.

Variable self : factory.

Lemma convert_items_keys mc rels rv items w d0 :
  w_dicts w !! rv = Some d0 ->
  Forall (fun kv => kv.1 ∈ dict_keys d0) items ->
  exists d', w_dicts (convert_items self mc rels rv items w).2 !! rv = Some d'
             /\ dict_keys d' = dict_keys d0.
Proof.
  revert w d0. induction items as [|[k v] items IH]; intros w d0 Hd Hall; simpl.
  - by exists d0.
  - apply Forall_cons in Hall as [Hk Hall]. simpl in Hk.
    assert (Hstep : forall v' w1, w_dicts w1 = w_dicts w ->
              exists d', w_dicts (convert_items self mc rels rv items
                                    (store_set rv k v' w1)).2 !! rv = Some d'
                         /\ dict_keys d' = dict_keys d0).
    { intros v' w1 Hw1.
      destruct (IH (store_set rv k v' w1) (dict_set d0 k v')) as (d' & Hd' & Hk').
      - unfold store_set. simpl. by rewrite lookup_alter_eq, Hw1, Hd.
      - by rewrite dict_keys_set.
      - exists d'. split; [done|]. by rewrite Hk', dict_keys_set. }
    destruct (class_getattr mc k) as [col|]; [|by exists d0].
    destruct (decide (k ∈ rels)) as [Hr|Hr].
    + destruct (loader_convert_identifiers self v (w_engine w)) as [[v'|e] s'];
        [by apply Hstep|by exists d0].
    + destruct (convert_scalar self col v) as [[v'|]|e];
        [by apply Hstep|by apply IH|by exists d0].
Qed.

Lemma convert_items_ret_attrs mc rels rv items w w' :
  convert_items self mc rels rv items w = (Ret tt, w') ->
  Forall (fun kv => is_Some (class_getattr mc kv.1)) items.
Proof.
  revert w. induction items as [|[k v] items IH]; intros w; simpl; [constructor|].
  destruct (class_getattr mc k) as [col|] eqn:Hcol; [|done].
  intros E. constructor; [by eexists|].
  destruct (decide (k ∈ rels)) as [Hr|Hr].
  - destruct (loader_convert_identifiers self v (w_engine w)) as [[v'|e] s'];
      [by eapply IH|done].
  - destruct (convert_scalar self col v) as [[v'|]|e]; [by eapply IH..|done].
Qed.

Lemma maybe_convert_values_inv i data w rv w' :
  maybe_convert_values self i data w = (Ret rv, w') ->
  exists mc d,
    models self !! class_name i = Some mc
    /\ w_dicts w !! data = Some d
    /\ rv = fresh (dom (w_dicts w))
    /\ convert_items self mc (relationship_names mc) rv d
         {| w_engine := w_engine w; w_dicts := <[rv := d]> (w_dicts w) |}
       = (Ret tt, w').
Proof.
  unfold maybe_convert_values, get_relationships.
  destruct (models self !! class_name i) as [mc|]; [|done].
  destruct (w_dicts w !! data) as [d|]; [|done].
  destruct (convert_items _ _ _ _ _ _) as [[[]|e] w1] eqn:E; [|done].
  intros [= <- <-]. by exists mc, d.
Qed.

(** X10. The dictionary that [maybe_convert_values] returns has the keys
    of the record, in the order of the record: the loop assigns to keys
    that the copy already has and adds none. *)
Theorem coerce_keeps_keys i data w rv w' d :
  maybe_convert_values self i data w = (Ret rv, w') ->
  w_dicts w !! data = Some d ->
  exists d', w_dicts w' !! rv = Some d' /\ dict_keys d' = dict_keys d.
Proof.
  intros E Hd.
  apply maybe_convert_values_inv in E as (mc & d0 & Hmc & Hd0 & -> & E).
  assert (d0 = d) as -> by congruence.
  set (rv := fresh (dom (w_dicts w))) in *.
  destruct (convert_items_keys mc (relationship_names mc) rv d
              {| w_engine := w_engine w; w_dicts := <[rv := d]> (w_dicts w) |} d)
    as (d' & Hd' & Hk).
  - simpl. apply lookup_insert_eq.
  - apply Forall_forall. intros kv Hkv. apply list_elem_of_fmap. by exists kv.
  - rewrite E in Hd'. by exists d'.
Qed.

(** X11. [maybe_convert_values] looks every key of the record up on the
    class, so it returns only for a record of which every key is an
    attribute of the class, and the record it returns names attributes
    of the class only: a key that is no attribute makes it raise. *)
Theorem coerced_record_names_attributes i data w rv w' mc (d d' : dict) :
  models self !! class_name i = Some mc ->
  maybe_convert_values self i data w = (Ret rv, w') ->
  w_dicts w !! data = Some d ->
  w_dicts w' !! rv = Some d' ->
  Forall (fun kv => is_Some (class_getattr mc kv.1)) d
  /\ Forall (fun kv => is_Some (class_getattr mc kv.1)) d'.
Proof.
  intros Hmc E Hd Hd'.
  apply maybe_convert_values_inv in E as (mc' & d0 & Hmc' & Hd0 & -> & E).
  assert (mc' = mc) as -> by congruence. assert (d0 = d) as -> by congruence.
  set (rv := fresh (dom (w_dicts w))) in *.
  pose proof (convert_items_ret_attrs _ _ _ _ _ _ E) as Hall.
  split; [done|].
  destruct (convert_items_keys mc (relationship_names mc) rv d
              {| w_engine := w_engine w; w_dicts := <[rv := d]> (w_dicts w) |} d)
    as (d1 & Hd1 & Hk).
  - simpl. apply lookup_insert_eq.
  - apply Forall_forall. intros kv Hkv. apply list_elem_of_fmap. by exists kv.
  - rewrite E in Hd1. simpl in Hd1.
    assert (Some d1 = Some d') as [= ->] by (etrans; [symmetry; exact Hd1|exact Hd']).
    apply Forall_forall. intros [k v] Hkv. simpl.
    assert (Hkin : k ∈ dict_keys d).
    { rewrite <- Hk. apply list_elem_of_fmap. by exists (k, v). }
    apply list_elem_of_fmap in Hkin as ([k0 v0] & -> & Hin).
    by apply (proj1 (Forall_forall _ _) Hall) in Hin.
Qed.

Lemma convert_items_plain mc rv items w d :
  w_dicts w !! rv = Some d ->
  NoDup (dict_keys d) ->
  Forall (fun kv =>
            kv ∈ d
            /\ (kv.1 ∉ relationship_names mc)
            /\ exists col,
                 class_getattr mc kv.1 = Some col
                 /\ (attr_type col = None
                     \/ exists ty, attr_type col = Some ty
                                   /\ (type_str ty = "UUID"
                                       \/ python_type ty = Some PyOtherType))) items ->
  convert_items self mc (relationship_names mc) rv items w = (Ret tt, w).
Proof.
  intros Hd Hnd.
  induction 1 as [|[k v] items (Hin & Hr & col & Hcol & Hty) _ IH]; simpl in *; [done|].
  rewrite Hcol, decide_False by done.
  assert (Hsame : store_set rv k v w = w)
    by (eapply store_set_same; [done|by apply dict_set_same]).
  unfold convert_scalar.
  destruct Hty as [->|(ty & -> & [Hu|Hp])]; [done| |].
  - rewrite decide_True by done. by rewrite Hsame.
  - destruct (decide (type_str ty = "UUID")); [by rewrite Hsame|]. by rewrite Hp.
Qed.

(** X12. A record of which every attribute is an attribute of the class,
    no relationship, and either without type, of the UUID type or of a
    type whose Python type is none of date, time, datetime and
    timedelta, is returned as an equal copy in a new dictionary: no
    factory is called, the loader is not called, and nothing raises. *)
Theorem plain_record_is_copied i data w mc d :
  models self !! class_name i = Some mc ->
  w_dicts w !! data = Some d ->
  NoDup (dict_keys d) ->
  Forall (fun kv =>
            (kv.1 ∉ relationship_names mc)
            /\ exists col,
                 class_getattr mc kv.1 = Some col
                 /\ (attr_type col = None
                     \/ exists ty, attr_type col = Some ty
                                   /\ (type_str ty = "UUID"
                                       \/ python_type ty = Some PyOtherType))) d ->
  exists rv w',
    maybe_convert_values self i data w = (Ret rv, w')
    /\ rv <> data
    /\ w_dicts w' !! rv = Some d
    /\ w_engine w' = w_engine w.
Proof.
  intros Hmc Hd Hnd Hall.
  unfold maybe_convert_values, get_relationships. rewrite Hmc, Hd.
  set (rv := fresh (dom (w_dicts w))).
  rewrite (convert_items_plain mc rv d _ d).
  - eexists _, _. split; [done|]. simpl. split; [|by rewrite lookup_insert_eq].
    intros Heq. assert (Hf : w_dicts w !! rv = None) by apply not_elem_of_dom, is_fresh.
    rewrite Heq in Hf. congruence.
  - simpl. apply lookup_insert_eq.
  - done.
  - apply Forall_forall. intros kv Hkv. split; [done|].
    by apply (proj1 (Forall_forall _ _) Hall).
Qed.

End Records.

(** *** Times and durations *)

Lemma py_time_ret args t :
  py_time args = Ret t ->
  length args <= 4
  /\ in_range 0 23 (nth 0 args 0%Z) && in_range 0 59 (nth 1 args 0%Z)
     && in_range 0 59 (nth 2 args 0%Z) && in_range 0 999999 (nth 3 args 0%Z) = true.
Proof.
  unfold py_time.
  destruct (decide (6 < length args)); [done|].
  destruct (negb (forallb fits_c_int (take 4 args))); [done|].
  destruct (decide (length args = 6)); [done|].
  destruct (in_range 0 23 (nth 0 args 0%Z) && in_range 0 59 (nth 1 args 0%Z)
            && in_range 0 59 (nth 2 args 0%Z) && in_range 0 999999 (nth 3 args 0%Z));
    simpl; [|done].
  destruct (decide (length args = 5)); [done|]. intros _. split; [lia|done].
Qed.

Lemma timedelta_normal (total : Z) :
  (total / 86400000000 * 86400000000
   + total mod 86400000000 / 1000000 * 1000000
   + total mod 86400000000 mod 1000000 = total
   /\ 0 <= total mod 86400000000 / 1000000 < 86400
   /\ 0 <= total mod 86400000000 mod 1000000 < 1000000)%Z.
Proof.
  pose proof (Z.div_mod total 86400000000 ltac:(lia)) as H1.
  pose proof (Z.mod_pos_bound total 86400000000 ltac:(lia)) as H2.
  pose proof (Z.div_mod (total mod 86400000000) 1000000 ltac:(lia)) as H3.
  pose proof (Z.mod_pos_bound (total mod 86400000000) 1000000 ltac:(lia)) as H4.
  split; [lia|]. split; [|lia]. split.
  - apply Z.div_pos; lia.
  - apply Z.div_lt_upper_bound; lia.
Qed.

Section Temporal.

Variable self : factory.

(** X13. For an attribute of the time or the duration kind the value
    has to be a string: on [None], a number, a boolean, an identifier,
    an instance, or a value that is a date, time or duration already,
    the coercion raises [AttributeError], the value having no [split]. *)
Theorem temporal_value_must_be_string col v :
  has_python_type col PyTime \/ has_python_type col PyTimedelta ->
  (forall s, v <> VStr s) ->
  (forall repr, v <> VOther repr) ->
  convert_scalar self col v = Raise AttributeError.
Proof.
  intros Hkind Hs Ho.
  assert (Hsplit : forall sep, py_split sep v = Raise AttributeError).
  { intros sep. destruct v; try done; [by destruct (Hs s)|by destruct (Ho repr)]. }
  unfold convert_scalar.
  destruct Hkind as [(ty & -> & Hu & ->)|(ty & -> & Hu & ->)];
    rewrite decide_False by done; by rewrite Hsplit.
Qed.

(** X14. A duration is read from exactly two fields separated by one
    space. Any other number of fields raises [ValueError]; with a
    whole-number magnitude, a unit that is no keyword of [timedelta]
    raises [TypeError]; and a unit that is one gives the duration of
    magnitude times unit, exactly, normalised to days, seconds below a
    day and microseconds below a second, or [OverflowError] when that is
    more than 999999999 days. *)
Theorem duration_from_fields col :
  has_python_type col PyTimedelta ->
  (forall s, length (split_on " " s) <> 2 ->
             convert_scalar self col (VStr s) = Raise ValueError)
  /\ (forall s magnitude unit n,
        split_on " " s = [magnitude; unit] ->
        py_float_whole magnitude = Some n ->
        timedelta_unit unit = None ->
        convert_scalar self col (VStr s) = Raise TypeError)
  /\ (forall s magnitude unit n f,
        split_on " " s = [magnitude; unit] ->
        py_float_whole magnitude = Some n ->
        timedelta_unit unit = Some f ->
        ((Z.abs (n * f / 86400000000) <= 999999999)%Z ->
         exists d sec us,
           convert_scalar self col (VStr s) = Ret (Some (VTimedelta d sec us))
           /\ (d * 86400000000 + sec * 1000000 + us = n * f)%Z
           /\ (0 <= sec < 86400)%Z
           /\ (0 <= us < 1000000)%Z)
        /\ ((999999999 < Z.abs (n * f / 86400000000))%Z ->
            convert_scalar self col (VStr s) = Raise OverflowError)).
Proof.
  intros (ty & Hty & Huuid & Hpy).
  assert (Hconv : forall s,
    convert_scalar self col (VStr s)
    = match split_on " " s with
      | [duration; unit] =>
          match py_float_whole duration with
          | None => Raise Unmodelled
          | Some n => obind (py_timedelta unit n) (fun d => Ret (Some d))
          end
      | _ => Raise ValueError
      end).
  { intros s. unfold convert_scalar. rewrite Hty, decide_False, Hpy by done. done. }
  split; [|split].
  - intros s Hlen. rewrite Hconv.
    by destruct (split_on " " s) as [|a [|b [|c l]]].
  - intros s magnitude unit n Hs Hn Hu. rewrite Hconv, Hs, Hn.
    unfold py_timedelta. by rewrite Hu.
  - intros s magnitude unit n f Hs Hn Hu.
    assert (Hc : convert_scalar self col (VStr s)
                 = obind (py_timedelta unit n) (fun d => Ret (Some d)))
      by by rewrite Hconv, Hs, Hn.
    rewrite Hc. unfold py_timedelta. rewrite Hu.
    destruct (timedelta_normal (n * f)) as (Hsum & Hsec & Hus).
    split; intros Hdays.
    + rewrite (proj2 (Z.leb_le _ _) Hdays). simpl. by eexists _, _, _.
    + by rewrite (proj2 (Z.leb_gt _ _) Hdays).
Qed.

(** X15. A string is accepted for an attribute of the time kind exactly
    when it splits at the colons into at most four parts that [int]
    reads, with the hour in 0..23, minute and second in 0..59 and the
    microsecond in 0..999999, parts that are missing counting as zero. *)
Theorem time_accepted_iff col s :
  has_python_type col PyTime ->
  (exists t, convert_scalar self col (VStr s) = Ret t)
  <-> exists args,
        ints_of (split_on ":" s) = Ret args
        /\ length args <= 4
        /\ in_range 0 23 (nth 0 args 0%Z) && in_range 0 59 (nth 1 args 0%Z)
           && in_range 0 59 (nth 2 args 0%Z) && in_range 0 999999 (nth 3 args 0%Z)
           = true.
Proof.
  intros (ty & Hty & Huuid & Hpy).
  assert (Hconv :
    convert_scalar self col (VStr s)
    = obind (ints_of (split_on ":" s)) (fun args =>
      obind (py_time args) (fun t => Ret (Some t)))).
  { unfold convert_scalar. rewrite Hty, decide_False, Hpy by done. done. }
  rewrite Hconv. split.
  - intros [t Ht]. destruct (ints_of (split_on ":" s)) as [args|e]; [|done].
    simpl in Ht. destruct (py_time args) as [t'|e] eqn:Hp; [|done].
    exists args. split; [done|]. by apply py_time_ret in Hp.
  - intros (args & -> & Hlen & Hrange). simpl.
    rewrite py_time_components by done. by eexists.
Qed.

End Temporal.

Lemma coerce_keeps_keys_witness :
  exists d',
    w_dicts (maybe_convert_values Fixture.fac Fixture.party 1%positive
               Fixture.party_world).2 !! 2%positive = Some d'
    /\ dict_keys d' = ["d"; "t"; "dur"; "u"].
Proof.
  apply (coerce_keeps_keys Fixture.fac Fixture.party 1%positive Fixture.party_world
           2%positive _ Fixture.party_record).
  - vm_compute. reflexivity.
  - vm_compute. reflexivity.
Defined.

Lemma coerced_record_names_attributes_witness :
  Forall (fun kv => is_Some (class_getattr Fixture.Event kv.1)) Fixture.party_record
  /\ Forall (fun kv => is_Some (class_getattr Fixture.Event kv.1))
            [ ("d", VDate 2024 1 15); ("t", VTime 13 5 0 0);
              ("dur", VTimedelta 2 0 0);
              ("u", VStr "3fae5c3e-7d1b-4c86-9a3f-2b8a4d6e1f00") ].
Proof.
  apply (coerced_record_names_attributes Fixture.fac Fixture.party 1%positive
           Fixture.party_world 2%positive
           (maybe_convert_values Fixture.fac Fixture.party 1%positive
              Fixture.party_world).2).
  - vm_compute. reflexivity.
  - vm_compute. reflexivity.
  - vm_compute. reflexivity.
  - vm_compute. reflexivity.
Defined.

Lemma plain_record_is_copied_witness :
  exists rv w',
    maybe_convert_values Fixture.fac Fixture.alice 1%positive Fixture.nick_world
    = (Ret rv, w')
    /\ rv <> 1%positive
    /\ w_dicts w' !! rv = Some Fixture.nick_record
    /\ w_engine w' = w_engine Fixture.nick_world.
Proof.
  apply (plain_record_is_copied Fixture.fac Fixture.alice 1%positive
           Fixture.nick_world Fixture.User Fixture.nick_record).
  - vm_compute. reflexivity.
  - vm_compute. reflexivity.
  - refine (bool_decide_unpack _ _). vm_compute. exact I.
  - constructor.
    { split; [refine (bool_decide_unpack _ _); vm_compute; exact I|].
      eexists. split; [reflexivity|]. right. eexists. split; [reflexivity|].
      right. reflexivity. }
    constructor; [|constructor].
    split; [refine (bool_decide_unpack _ _); vm_compute; exact I|].
    eexists. split; [reflexivity|]. by left.
Defined.

Lemma temporal_value_must_be_string_witness :
  convert_scalar Fixture.fac
    (Fixture.scalar {| type_str := "TIME"; python_type := Some PyTime |}) VNone
  = Raise AttributeError.
Proof.
  apply temporal_value_must_be_string; [|discriminate|discriminate].
  left. eexists. split; [reflexivity|]. split; [discriminate|reflexivity].
Defined.

Lemma duration_from_fields_witness :
  convert_scalar Fixture.fac
    (Fixture.scalar {| type_str := "INTERVAL"; python_type := Some PyTimedelta |})
    (VStr "2  days")
  = Raise ValueError.
Proof.
  refine (proj1 (duration_from_fields Fixture.fac
                   (Fixture.scalar {| type_str := "INTERVAL";
                                      python_type := Some PyTimedelta |}) _)
            "2  days" _).
  - eexists. split; [reflexivity|]. split; [discriminate|reflexivity].
  - vm_compute. lia.
Defined.

Lemma time_accepted_iff_witness :
  (exists t, convert_scalar Fixture.fac
               (Fixture.scalar {| type_str := "TIME"; python_type := Some PyTime |})
               (VStr "24:00") = Ret t)
  <-> exists args,
        ints_of (split_on ":" "24:00") = Ret args
        /\ length args <= 4
        /\ in_range 0 23 (nth 0 args 0%Z) && in_range 0 59 (nth 1 args 0%Z)
           && in_range 0 59 (nth 2 args 0%Z) && in_range 0 999999 (nth 3 args 0%Z)
           = true.
Proof.
  apply time_accepted_iff.
  eexists. split; [reflexivity|]. split; [discriminate|reflexivity].
Defined.

(** *** The coercion, attribute by attribute *)

Lemma dict_get_set_eq d k v : dict_get (dict_set d k v) k = Some v.
Proof.
  induction d as [|[k0 v0] d IH]; simpl; [by rewrite decide_True|].
  destruct (decide (k0 = k)) as [->|Hne]; simpl.
  - by rewrite decide_True.
  - by rewrite decide_False.
Qed.

Lemma dict_get_NoDup d k v :
  NoDup (dict_keys d) -> (k, v) ∈ d -> dict_get d k = Some v.
Proof.
  induction d as [|[k0 v0] d IH]; simpl; [by intros _ ?%elem_of_nil|].
  intros [Hk0 Hnd]%NoDup_cons Hin.
  destruct (decide (k0 = k)) as [->|Hne].
  - apply elem_of_cons in Hin as [[= ->]|Hin]; [done|].
    exfalso. apply Hk0. apply list_elem_of_fmap. by exists (k, v).
  - apply elem_of_cons in Hin as [[= -> ->]|Hin]; [done|]. by apply IH.
Qed.

Lemma store_get_set_eq rv k v w :
  is_Some (w_dicts w !! rv) -> store_get (store_set rv k v w) rv k = Some v.
Proof.
  intros [d Hd]. unfold store_get, store_set. simpl.
  rewrite lookup_alter_eq, Hd. simpl. apply dict_get_set_eq.
Qed.

Lemma store_set_allocated rv k v w :
  is_Some (w_dicts w !! rv) -> is_Some (w_dicts (store_set rv k v w) !! rv).
Proof.
  intros [d Hd]. unfold store_set. simpl. rewrite lookup_alter_eq, Hd. by eexists.
Qed.

Section Pointwise.

Variable self : factory.

Lemma item_converted_before mc rels rv w1 w w' kv :
  store_get w1 rv kv.1 = store_get w rv kv.1 ->
  item_converted self mc rels rv w1 w' kv ->
  item_converted self mc rels rv w w' kv.
Proof.
  intros Hsame (col & Hcol & H). exists col. split; [done|].
  destruct (decide (kv.1 ∈ rels)); [done|].
  destruct (convert_scalar self col kv.2) as [[v'|]|e]; [done| |done].
  by rewrite <- Hsame.
Qed.

Lemma convert_items_pointwise mc rels rv items w w' :
  convert_items self mc rels rv items w = (Ret tt, w') ->
  is_Some (w_dicts w !! rv) ->
  NoDup (dict_keys items) ->
  (forall k, k ∉ dict_keys items -> store_get w' rv k = store_get w rv k)
  /\ Forall (item_converted self mc rels rv w w') items.
Proof.
  revert w. induction items as [|[k0 v0] rest IH]; intros w E Hal Hnd; simpl in *.
  - injection E as <-. split; [done|constructor].
  - apply NoDup_cons in Hnd as [Hk0 Hnd].
    destruct (class_getattr mc k0) as [col|] eqn:Hcol; [|done].
    assert (Hrest : forall w1,
      convert_items self mc rels rv rest w1 = (Ret tt, w') ->
      is_Some (w_dicts w1 !! rv) ->
      (forall k, k <> k0 -> store_get w1 rv k = store_get w rv k) ->
      (forall k, k ∉ k0 :: dict_keys rest -> store_get w' rv k = store_get w rv k)
      /\ store_get w' rv k0 = store_get w1 rv k0
      /\ Forall (item_converted self mc rels rv w w') rest).
    { intros w1 E1 Hal1 Hw1. destruct (IH w1 E1 Hal1 Hnd) as [Hout Hin].
      split; [|split].
      - intros k [Hne Hk]%not_elem_of_cons. rewrite Hout by done. by apply Hw1.
      - by apply Hout.
      - apply Forall_forall. intros kv Hkv.
        apply (item_converted_before mc rels rv w1).
        + apply Hw1. intros Heq. apply Hk0. rewrite <- Heq.
          apply list_elem_of_fmap. by exists kv.
        + by apply (proj1 (Forall_forall _ _) Hin). }
    destruct (decide (k0 ∈ rels)) as [Hr|Hr].
    + destruct (loader_convert_identifiers self v0 (w_engine w)) as [[v'|e] s1] eqn:El;
        [|done].
      destruct (Hrest _ E) as (Hout & Hhead & Hin).
      * by apply store_set_allocated.
      * intros k Hne. by rewrite store_get_set_ne.
      * split; [done|]. constructor; [|done].
        exists col. split; [done|]. simpl. rewrite decide_True by done.
        exists (w_engine w), s1, v'. split; [done|].
        rewrite Hhead. by apply store_get_set_eq.
    + destruct (convert_scalar self col v0) as [[v'|]|e] eqn:Ec; [| |done].
      * destruct (Hrest _ E) as (Hout & Hhead & Hin).
        -- by apply store_set_allocated.
        -- intros k Hne. by rewrite store_get_set_ne.
        -- split; [done|]. constructor; [|done].
           exists col. split; [done|]. simpl. rewrite decide_False, Ec by done.
           rewrite Hhead. by apply store_get_set_eq.
      * destruct (Hrest _ E) as (Hout & Hhead & Hin); [done..|].
        split; [done|]. constructor; [|done].
        exists col. split; [done|]. simpl. by rewrite decide_False, Ec.
Qed.

(** X18. The record that [maybe_convert_values] returns is the record
    it was given, converted attribute by attribute: the value of a
    relationship attribute is a value the loader returned for the raw
    value; the value of any other attribute is the raw value where its
    kind assigns nothing (no type, a plain type), and otherwise what its
    kind makes of the raw value (the raw value itself for a UUID, the
    result of the factory for a date or a datetime, the time or the
    duration read from the text). *)
Theorem coerce_attribute_by_attribute i data w rv w' mc d :
  models self !! class_name i = Some mc ->
  maybe_convert_values self i data w = (Ret rv, w') ->
  w_dicts w !! data = Some d ->
  NoDup (dict_keys d) ->
  forall k v, (k, v) ∈ d ->
    exists col,
      class_getattr mc k = Some col
      /\ if decide (k ∈ relationship_names mc) then
           exists s s' v',
             loader_convert_identifiers self v s = (Ret v', s')
             /\ store_get w' rv k = Some v'
         else
           match convert_scalar self col v with
           | Ret None => store_get w' rv k = Some v
           | Ret (Some v') => store_get w' rv k = Some v'
           | Raise _ => False
           end.
Proof.
  intros Hmc E Hd Hnd k v Hkv.
  apply maybe_convert_values_inv in E as (mc' & d0 & Hmc' & Hd0 & -> & E).
  assert (mc' = mc) as -> by congruence. assert (d0 = d) as -> by congruence.
  set (rv := fresh (dom (w_dicts w))) in *.
  set (w0 := {| w_engine := w_engine w; w_dicts := <[rv := d]> (w_dicts w) |}) in *.
  destruct (convert_items_pointwise mc (relationship_names mc) rv d w0 w' E)
    as [_ Hall]; [|done|].
  { subst w0. simpl. rewrite lookup_insert_eq. by eexists. }
  destruct (proj1 (Forall_forall _ _) Hall _ Hkv) as (col & Hcol & H). simpl in *.
  exists col. split; [done|].
  destruct (decide (k ∈ relationship_names mc)); [done|].
  destruct (convert_scalar self col v) as [[v'|]|e]; [done| |done].
  rewrite H. unfold store_get. subst w0. simpl. rewrite lookup_insert_eq. simpl.
  by apply dict_get_NoDup.
Qed.

End Pointwise.

Lemma coerce_attribute_by_attribute_witness :
  exists col,
    class_getattr Fixture.Event "dur" = Some col
    /\ if decide ("dur" ∈ relationship_names Fixture.Event) then
         exists s s' v',
           loader_convert_identifiers Fixture.fac (VStr "2 days") s = (Ret v', s')
           /\ store_get (maybe_convert_values Fixture.fac Fixture.party 1%positive
                           Fixture.party_world).2 2%positive "dur" = Some v'
       else
         match convert_scalar Fixture.fac col (VStr "2 days") with
         | Ret None =>
             store_get (maybe_convert_values Fixture.fac Fixture.party 1%positive
                          Fixture.party_world).2 2%positive "dur"
             = Some (VStr "2 days")
         | Ret (Some v') =>
             store_get (maybe_convert_values Fixture.fac Fixture.party 1%positive
                          Fixture.party_world).2 2%positive "dur" = Some v'
         | Raise _ => False
         end.
Proof.
  apply (coerce_attribute_by_attribute Fixture.fac Fixture.party 1%positive
           Fixture.party_world 2%positive _ Fixture.Event Fixture.party_record).
  - vm_compute. reflexivity.
  - vm_compute. reflexivity.
  - vm_compute. reflexivity.
  - refine (bool_decide_unpack _ _). vm_compute. exact I.
  - refine (bool_decide_unpack _ _). vm_compute. exact I.
Defined.
